(** * Blood donation backend: the alert and profile handlers of [app.py]

    A shallow embedding of the Flask handlers [create_alert] and
    [update_user_profile], of the two SQLAlchemy models they use, and of the
    proximity and ranking engine they call, followed by the properties of
    the matching pipeline and of the profile update.

    Conventions of the embedding:
    - a Python [float] is a rational number ([Q]); nothing below depends on
      rounding, only on comparisons;
    - a request body is a JSON object, a [gmap] from keys to JSON values;
    - a response is the JSON value given to [jsonify] and its status code;
    - a handler runs in a small monad that threads the [users] table,
      records the store accesses, calls and prints it performs, and can
      [return] a response early;
    - attribute writes go to the object loaded in the session; the table
      changes only when [db.session.commit()] succeeds, and a request that
      returns before its commit leaves the table as it was. *)

From Stdlib Require Import QArith Qabs Lqa.
From stdpp Require Import base strings list gmap sorting pretty.

Set Default Proof Using "Type".

(** ** JSON values *)

#[warnings="-register-all"]
Inductive json : Type :=
  | JNull
  | JBool (b : bool)
  | JInt (n : Z)
  | JFloat (x : Q)
  | JStr (s : string)
  | JArr (items : list json)
  | JObj (fields : list (string * json)).

#[global] Instance json_inhabited : Inhabited json := populate JNull.

(** [d[k]] for a dict literal, whose keys are distinct. *)
Fixpoint assoc (k : string) (fields : list (string * json)) : option json :=
  match fields with
  | [] => None
  | (k', v) :: rest => if String.eqb k k' then Some v else assoc k rest
  end.

Definition json_field (k : string) (j : json) : option json :=
  match j with
  | JObj fields => assoc k fields
  | _ => None
  end.

Definition json_of_option {A} (f : A → json) (o : option A) : json :=
  match o with
  | Some a => f a
  | None => JNull
  end.

(** Python's truth value of a string that may be [None]. *)
Definition truthy (o : option string) : bool :=
  match o with
  | Some s => negb (String.eqb s "")
  | None => false
  end.

(** ** Dates *)

Record date : Type := Date { year : Z; month : Z; day : Z }.

Definition pad (width : nat) (n : Z) : string :=
  let digits := pretty n in
  String.concat "" (replicate (width - String.length digits) "0") +:+ digits.

Definition isoformat (d : date) : string :=
  pad 4 (year d) +:+ "-" +:+ pad 2 (month d) +:+ "-" +:+ pad 2 (day d).

(** ** MODELS *)

Module User.

(** The columns of table [users]. [name] and [phone] are [nullable=False]
    in the database, but the attribute of a loaded object can be set to
    [None] before the commit that would reject it. *)
Record t : Type := Make {
  id : Z;
  name : option string;
  phone : option string;
  email : string;
  password : string;
  role : string;
  address : option string;
  lat : option Q;
  lng : option Q;
  blood_type : option string;
  last_donation : option date
}.

Definition to_dict (self : t) : json :=
  JObj [ ("id", JInt (id self));
         ("name", json_of_option JStr (name self));
         ("phone", json_of_option JStr (phone self));
         ("email", JStr (email self));
         ("role", JStr (role self));
         ("address", json_of_option JStr (address self));
         ("lat", json_of_option JFloat (lat self));
         ("lng", json_of_option JFloat (lng self));
         ("blood_type", json_of_option JStr (blood_type self));
         ("last_donation",
           json_of_option JStr (isoformat <$> last_donation self)) ].

(** [setattr(user, field, value)] for the text columns. *)
Definition set_name (v : option string) (u : t) : t :=
  Make (id u) v (phone u) (email u) (password u) (role u) (address u)
       (lat u) (lng u) (blood_type u) (last_donation u).
Definition set_phone (v : option string) (u : t) : t :=
  Make (id u) (name u) v (email u) (password u) (role u) (address u)
       (lat u) (lng u) (blood_type u) (last_donation u).
Definition set_address (v : option string) (u : t) : t :=
  Make (id u) (name u) (phone u) (email u) (password u) (role u) v
       (lat u) (lng u) (blood_type u) (last_donation u).
Definition set_blood_type (v : option string) (u : t) : t :=
  Make (id u) (name u) (phone u) (email u) (password u) (role u) (address u)
       (lat u) (lng u) v (last_donation u).
Definition set_last_donation (v : option date) (u : t) : t :=
  Make (id u) (name u) (phone u) (email u) (password u) (role u) (address u)
       (lat u) (lng u) (blood_type u) v.
Definition set_coords (la lo : option Q) (u : t) : t :=
  Make (id u) (name u) (phone u) (email u) (password u) (role u) (address u)
       la lo (blood_type u) (last_donation u).

End User.

Module Hospital.

Record t : Type := Make {
  id : Z;
  name : string;
  lat : Q;
  lng : Q
}.

Definition to_dict (self : t) : json :=
  JObj [ ("id", JInt (id self)); ("name", JStr (name self));
         ("lat", JFloat (lat self)); ("lng", JFloat (lng self)) ].

End Hospital.

(** ** Responses, exceptions and recorded effects *)

Inductive response : Type :=
  | Response (body : json) (status : nat)   (* return jsonify(body), status *)
  | Abort (status : nat).                   (* abort(status), as get_or_404 *)

Inductive exn : Type :=
  | ImportError (msg : string)
  | Exception (msg : string).

(** One element of the list returned by [filter_nearby_users]: the dict
    with keys ['user'], ['distance'] and ['ai_score']. *)
Record match_entry : Type := MatchEntry {
  r_user : User.t;
  r_distance : Q;
  r_ai_score : Q
}.

Inductive event : Type :=
  | HospitalGet (key : json)                 (* Hospital.query.get(key) *)
  | UserFilterAll (blood_type : json)        (* User.query.filter(...).all() *)
  | UserGet (user_id : Z)                    (* User.query.get_or_404(id) *)
  | ImportAiFilter                           (* from ai_filter import ... *)
  | CallFilterNearbyUsers
      (hospital : Hospital.t) (users : list User.t) (radius_km : json)
  | Geocode (address : string)               (* geocode_address(address) *)
  | Print (line : string)
  | Commit                                   (* db.session.commit() *)
  | Rollback.                                (* db.session.rollback() *)

(** ** The handler monad

    A handler reads and writes the rows of table [users], appends to the
    log of effects, and either goes on with a value or has returned its
    response. *)

Definition handler (A : Type) : Type :=
  list User.t → list event * list User.t * (response + A).

#[global] Instance handler_ret : MRet handler :=
  λ A a db, ([], db, inr a).

#[global] Instance handler_bind : MBind handler :=
  λ A B k m db,
    match m db with
    | (log, db', inl r) => (log, db', inl r)
    | (log, db', inr a) =>
        let '(log', db'', x) := k a db' in (log ++ log', db'', x)
    end.

(** [return r] *)
Definition respond {A} (r : response) : handler A :=
  λ db, ([], db, inl r).

Definition emit (e : event) : handler unit :=
  λ db, ([e], db, inr tt).

Definition rows : handler (list User.t) :=
  λ db, ([], db, inr db).

Definition write_rows (db' : list User.t) : handler unit :=
  λ _, ([], db', inr tt).

(** The outcome of a request: the response, the table afterwards and the
    log. *)
Definition run (h : handler response) (db : list User.t)
  : response * list User.t * list event :=
  match h db with
  | (log, db', inl r) => (r, db', log)
  | (log, db', inr r) => (r, db', log)
  end.

Definition the_response (o : response * list User.t * list event) : response :=
  o.1.1.
Definition the_table (o : response * list User.t * list event) : list User.t :=
  o.1.2.
Definition the_log (o : response * list User.t * list event) : list event :=
  o.2.

(** ** /create_alert *)

(** SQL equality of a nullable text column with a bound request value:
    a string is compared as text and [None] is rendered [IS NULL]. The
    request interface sends a string, and the statements that depend on the
    selection take [blood_type] to be one: what SQLite does with the other
    JSON kinds (a number is compared through the text affinity of the
    column, a list or an object is refused when it is bound) is not
    modelled, and they select no row here. *)
Definition column_eq (column : option string) (value : json) : bool :=
  match value, column with
  | JStr s, Some c => String.eqb c s
  | JNull, None => true
  | _, _ => false
  end.

Definition required_alert_fields : list string := ["hospital_id"; "blood_type"].

(** The criteria of [User.query.filter] in [create_alert]. *)
Definition suitable (blood_type_needed : json) (u : User.t) : bool :=
  String.eqb (User.role u) "donor"
  && bool_decide (is_Some (User.lat u))
  && bool_decide (is_Some (User.lng u))
  && column_eq (User.blood_type u) blood_type_needed.

Definition alert_entry (r : match_entry) : json :=
  JObj [ ("user", User.to_dict (r_user r));
         ("distance_km", JFloat (r_distance r));
         ("ai_score", JFloat (r_ai_score r)) ].

Section create_alert.

(** [Hospital.query.get]: the primary-key lookup of the store, a function
    of the key the request carries. *)
Variable Hospital_query_get : json → option Hospital.t.

(** Module [ai_filter]: [None] when the import fails, otherwise its
    function [filter_nearby_users], which returns its list or raises. *)
Variable ai_filter :
  option (Hospital.t → list User.t → json → exn + list match_entry).

Definition create_alert (data : gmap string json) : handler response :=
  if negb (forallb (λ k, bool_decide (is_Some (data !! k)))
             required_alert_fields)
  then
    respond (Response
      (JObj [("error", JStr "Thiếu hospital_id hoặc blood_type")]) 400)
  else
    emit (HospitalGet (data !!! "hospital_id"));;
    match Hospital_query_get (data !!! "hospital_id") with
    | None =>
        respond (Response
          (JObj [("error", JStr "Không tìm thấy bệnh viện")]) 404)
    | Some hospital =>
        let blood_type_needed := data !!! "blood_type" in
        let radius_km := default (JInt 10) (data !! "radius_km") in
        emit (UserFilterAll blood_type_needed);;
        users ← rows;
        let suitable_users := filter (suitable blood_type_needed) users in
        emit ImportAiFilter;;
        match ai_filter with
        | None =>
            respond (Response (JObj [("error",
              JStr "Không tìm thấy file ai_filter.py hoặc file có lỗi.")])
              500)
        | Some filter_nearby_users =>
            emit (CallFilterNearbyUsers hospital suitable_users radius_km);;
            match filter_nearby_users hospital suitable_users radius_km with
            | inr results =>
                let top_50_users := take 50 results in
                respond (Response
                  (JObj [ ("hospital", Hospital.to_dict hospital);
                          ("blood_type_needed", blood_type_needed);
                          ("radius_km", radius_km);
                          ("total_matched",
                            JInt (Z.of_nat (length results)));
                          ("top_50_users",
                            JArr (alert_entry <$> top_50_users)) ])
                  200)
            | inl (ImportError _) =>
                respond (Response (JObj [("error",
                  JStr "Không tìm thấy file ai_filter.py hoặc file có lỗi.")])
                  500)
            | inl (Exception e) =>
                emit (Print ("Lỗi trong quá trình lọc AI: " +:+ e));;
                respond (Response (JObj [("error",
                  JStr "Lỗi máy chủ nội bộ khi lọc người dùng")]) 500)
            end
        end
    end.

End create_alert.

(** The request carries both required keys. *)
Definition has_required_fields (data : gmap string json) : Prop :=
  is_Some (data !! "hospital_id") ∧ is_Some (data !! "blood_type").

(** The bodies of the responses of [create_alert], by name. *)
Definition import_error_body : json :=
  JObj [("error", JStr "Không tìm thấy file ai_filter.py hoặc file có lỗi.")].

Definition filter_error_body : json :=
  JObj [("error", JStr "Lỗi máy chủ nội bộ khi lọc người dùng")].

Definition success_body (hospital : Hospital.t) (blood_type_needed radius_km : json)
    (results : list match_entry) : json :=
  JObj [ ("hospital", Hospital.to_dict hospital);
         ("blood_type_needed", blood_type_needed);
         ("radius_km", radius_km);
         ("total_matched", JInt (Z.of_nat (length results)));
         ("top_50_users", JArr (alert_entry <$> take 50 results)) ].

(** ** The proximity and ranking engine *)

Record GeoPoint : Type := { gp_lat : Q; gp_lng : Q }.

Definition hospital_location (h : Hospital.t) : GeoPoint :=
  {| gp_lat := Hospital.lat h; gp_lng := Hospital.lng h |}.

Definition donor_location (u : User.t) : option GeoPoint :=
  match User.lat u, User.lng u with
  | Some la, Some lo => Some {| gp_lat := la; gp_lng := lo |}
  | _, _ => None
  end.

(** The radius carried by the request, when it is a number. *)
Definition radius_of_json (radius_km : json) : option Q :=
  match radius_km with
  | JInt n => Some (inject_Z n)
  | JFloat x => Some x
  | _ => None
  end.

(** The ranking rule: score descending, then distance ascending, then donor
    id ascending. *)
Definition rank_leb (a b : match_entry) : bool :=
  match (r_ai_score b ?= r_ai_score a)%Q with
  | Lt => true
  | Gt => false
  | Eq =>
      match (r_distance a ?= r_distance b)%Q with
      | Lt => true
      | Gt => false
      | Eq => bool_decide (User.id (r_user a) ≤ User.id (r_user b))%Z
      end
  end.

Definition rank_le : relation match_entry := λ a b, rank_leb a b.

#[global] Instance rank_le_dec a b : Decision (rank_le a b).
Proof. unfold rank_le. apply _. Defined.

Section engine.

(** The great-circle distance in kilometres and the scoring policy: the
    engine is stated once for all of them. *)
Variable distanceKm : GeoPoint → GeoPoint → Q.
Variable scorer : User.t → Q → Q.

(** Distance filter: the candidates within the radius, each with its
    distance; a radius that is not positive gives nothing. *)
Definition distance_filter (origin : GeoPoint) (radius : Q)
    (candidates : list (User.t * GeoPoint)) : list (User.t * Q) :=
  if Qle_bool radius 0 then []
  else
    filter (λ c, Qle_bool c.2 radius)
           ((λ c, (c.1, distanceKm origin c.2)) <$> candidates).

Definition scored (c : User.t * Q) : match_entry :=
  {| r_user := c.1; r_distance := c.2; r_ai_score := scorer c.1 c.2 |}.

Definition located (u : User.t) : option (User.t * GeoPoint) :=
  g ← donor_location u; Some (u, g).

(** The entry of a donor at location [g], seen from [hospital]. *)
Definition entry_of (hospital : Hospital.t) (u : User.t) (g : GeoPoint)
  : match_entry :=
  scored (u, distanceKm (hospital_location hospital) g).

(** The stages on located candidates: filter by distance, score, rank. *)
Definition pipeline (hospital : Hospital.t) (radius : Q)
    (candidates : list (User.t * GeoPoint)) : list match_entry :=
  merge_sort rank_le
    (scored <$>
       distance_filter (hospital_location hospital) radius candidates).

(** Modelled from the spec: function [filter_nearby_users] of module
    [ai_filter], which [create_alert] imports and which is not part of the
    sources. It is the pipeline of sections 4.2 to 4.4: distance filter
    (inclusive radius, nothing for a non-positive radius), suitability
    score, and ranking by score descending, distance ascending and donor
    id ascending, before the caller truncates. A radius that is not a
    number, or a candidate without a location, is the unexpected failure
    of section 4.5. *)
Definition filter_nearby_users (hospital : Hospital.t)
    (users : list User.t) (radius_km : json) : exn + list match_entry :=
  match radius_of_json radius_km, mapM located users with
  | Some radius, Some candidates =>
      inr (pipeline hospital radius candidates)
  | None, _ => inl (Exception "radius_km is not a number")
  | _, None => inl (Exception "donor without a location")
  end.

(** What a successful call returns for the rows of table [users]: the
    pipeline on the rows selected by the query. *)
Definition matches (hospital : Hospital.t) (radius : Q)
    (blood_type_needed : json) (users : list User.t) : list match_entry :=
  pipeline hospital radius
    (omap located (filter (suitable blood_type_needed) users)).

End engine.

(** ** /users/<int:user_id> *)

(** What [geocode_address] does: a pair of coordinates, [None], or an
    exception. *)
Inductive geo_result : Type :=
  | Coords (lat lng : Q)
  | NoCoords
  | GeoError (e : string).

Definition allowed_fields : list string :=
  ["name"; "phone"; "address"; "blood_type"; "last_donation"].

(** [setattr(user, field, value)] for the text fields among
    [allowed_fields]. *)
Definition setattr (field : string) (value : option string) (user : User.t)
  : User.t :=
  if String.eqb field "name" then User.set_name value user
  else if String.eqb field "phone" then User.set_phone value user
  else if String.eqb field "address" then User.set_address value user
  else if String.eqb field "blood_type" then User.set_blood_type value user
  else user.

(** A [for] loop whose body may return from the handler. *)
Fixpoint for_each {A S} (items : list A) (body : A → S → handler S) (s : S)
  : handler S :=
  match items with
  | [] => mret s
  | x :: rest => s' ← body x s; for_each rest body s'
  end.

(** The row written by a commit takes the place of the row with its
    primary key. *)
Definition replace_row (user : User.t) (users : list User.t) : list User.t :=
  (λ row, if bool_decide (User.id row = User.id user) then user else row)
    <$> users.

Definition str (o : option string) : string := default "None" o.

Definition newline : string := String (Ascii.ascii_of_nat 10) "".

Section update_user_profile.

Variable geocode_address : string → geo_result.

(** [parse(date_str).date()] of [dateutil]; [None] stands for the
    [ValueError] or [TypeError] it raises. *)
Variable parse : string → option date.

(** The exception raised by [db.session.commit()] on the pending rows,
    if any. *)
Variable commit_error : list User.t → option string.

(** [User.query.get_or_404(user_id)]: the row with that primary key, or
    [abort(404)]. The store keeps a key in 64 bits and answers for a key
    below [2 ^ 63] only; the statements about a key that no row has take it
    in that range. *)
Definition get_or_404 (user_id : Z) : handler User.t :=
  emit (UserGet user_id);;
  users ← rows;
  match List.find (λ row, bool_decide (User.id row = user_id)) users with
  | Some user => mret user
  | None => respond (Abort 404)
  end.

(** The body of the loop over [allowed_fields]; the state is the pending
    [user] object and [geocoding_needed]. The values of the request are
    strings or [null]. *)
Definition update_field (data : gmap string (option string))
    (old_address : option string) (field : string) (s : User.t * bool)
  : handler (User.t * bool) :=
  let '(user, geocoding_needed) := s in
  match data !! field with
  | None => mret (user, geocoding_needed)
  | Some value =>
      user ←
        (if String.eqb field "last_donation" then
           let date_str := value in
           if truthy date_str then
             match parse (default "" date_str) with
             | Some d => mret (User.set_last_donation (Some d) user)
             | None =>
                 respond (Response (JObj [("error",
                   JStr ("Định dạng ngày " +:+ field +:+ " không hợp lệ"))])
                   400)
             end
           else mret (User.set_last_donation None user)
         else mret (setattr field value user));
      if String.eqb field "address" && bool_decide (value ≠ old_address)
      then mret (user, true)
      else mret (user, geocoding_needed)
  end.

(** The block under [# Geocode if address changed]. *)
Definition geocode_if_needed (old_address : option string) (user : User.t)
    (geocoding_needed : bool) : handler User.t :=
  if geocoding_needed && truthy (User.address user) then
    let address := default "" (User.address user) in
    emit (Print (newline +:+ "🔄 ĐANG CẬP NHẬT TỌA ĐỘ"));;
    emit (Print ("   Địa chỉ cũ: " +:+ str old_address));;
    emit (Print ("   Địa chỉ mới: " +:+ address));;
    emit (Geocode address);;
    match geocode_address address with
    | Coords la lo =>
        emit (Print "✅ Cập nhật tọa độ thành công!");;
        mret (User.set_coords (Some la) (Some lo) user)
    | NoCoords =>
        emit (Print "⚠️ Không tìm thấy tọa độ cho địa chỉ mới");;
        mret (User.set_coords None None user)
    | GeoError e =>
        emit (Print ("❌ Lỗi khi geocode: " +:+ e));;
        mret user
    end
  else mret user.

(** The final [try]: commit the pending object and answer. *)
Definition commit_profile (user : User.t) : handler response :=
  emit Commit;;
  users ← rows;
  let pending := replace_row user users in
  match commit_error pending with
  | None =>
      write_rows pending;;
      respond (Response
        (JObj [ ("message", JStr "Cập nhật thông tin thành công");
                ("user", User.to_dict user) ]) 200)
  | Some e =>
      emit Rollback;;
      emit (Print ("Lỗi khi cập nhật database: " +:+ e));;
      respond (Response
        (JObj [("error", JStr "Lỗi máy chủ nội bộ khi cập nhật")]) 500)
  end.

Definition update_user_profile (user_id : Z)
    (data : gmap string (option string)) : handler response :=
  user ← get_or_404 user_id;
  let old_address := User.address user in
  s ← for_each allowed_fields (update_field data old_address) (user, false);
  user ← geocode_if_needed old_address s.1 s.2;
  commit_profile user.

End update_user_profile.

(** ** /register_donor, /login and /users

    The bodies of these requests are JSON objects whose values are strings
    or [null]. Their queries read the table through [rows]; the log keeps
    the geocoder calls, the prints, the commits and the rollbacks. *)

(** [data.get(k)]: the value of the key, [None] when it is missing or
    [null]. *)
Definition data_get (data : gmap string (option string)) (k : string)
  : option string :=
  mjoin (data !! k).

(** [data[k]] for a key that holds a string. *)
Definition item (data : gmap string (option string)) (k : string) : string :=
  default "" (data_get data k).

(** [field in data and data[field]] *)
Definition filled (data : gmap string (option string)) (field : string) : bool :=
  match data !! field with
  | Some value => truthy value
  | None => false
  end.

Definition required_fields : list string :=
  ["fullName"; "email"; "phone"; "password"; "address"; "bloodType"].

(** The criterion of the duplicate check:
    [(User.email == email) | (User.phone == phone)]. *)
Definition same_email_or_phone (email phone : string) (row : User.t) : bool :=
  String.eqb (User.email row) email || bool_decide (User.phone row = Some phone).

Section register_donor.

Variable geocode_address : string → geo_result.

(** [parse(date_str).date()] of [dateutil], [None] when it raises
    [ValueError] or [TypeError], and the text of that exception. *)
Variable parse : string → option date.
Variable parse_message : string → string.

(** The exception raised by [db.session.commit()] on the pending rows, if
    any, and the primary key the database gives to a row added to the
    table. *)
Variable commit_error : list User.t → option string.
Variable new_id : list User.t → Z.

(** The block under [# ===== GEOCODING MIỄN PHÍ =====]: the pair
    [lat, lng]. *)
Definition geocode_registration (address : string)
  : handler (option Q * option Q) :=
  emit (Geocode address);;
  match geocode_address address with
  | Coords la lo =>
      emit (Print ("✅ Geocoding thành công cho '" +:+ address +:+ "'"));;
      mret (Some la, Some lo)
  | NoCoords =>
      emit (Print ("⚠️ Không tìm thấy tọa độ cho '" +:+ address +:+ "'"));;
      emit (Print
        "💡 Người dùng vẫn được đăng ký, có thể cập nhật địa chỉ sau");;
      mret (None, None)
  | GeoError e =>
      emit (Print ("❌ Lỗi khi geocoding: " +:+ e));;
      mret (None, None)
  end.

(** The block under [# Parse last donation date]. *)
Definition parse_last_donation (data : gmap string (option string))
  : handler (option date) :=
  if truthy (data_get data "lastDonationDate") then
    let date_str := item data "lastDonationDate" in
    if truthy (Some date_str) then
      match parse date_str with
      | Some d => mret (Some d)
      | None =>
          emit (Print ("Lỗi parse ngày '" +:+ date_str +:+ "': "
                       +:+ parse_message date_str));;
          respond (Response (JObj [("error",
            JStr "Định dạng ngày hiến máu cuối không hợp lệ (cần YYYY-MM-DD)")])
            400)
      end
    else mret None
  else mret None.

(** The final [try]: add the new row, commit and answer. *)
Definition add_and_commit (new_user : User.t) : handler response :=
  emit Commit;;
  users ← rows;
  let pending := users ++ [new_user] in
  match commit_error pending with
  | None =>
      write_rows pending;;
      let user_dict := User.to_dict new_user in
      if bool_decide (User.lat new_user = None)
         || bool_decide (User.lng new_user = None)
      then
        respond (Response
          (JObj [ ("message", JStr "Đăng ký thành công");
                  ("warning", JStr
                    "Không thể xác định vị trí chính xác. Vui lòng kiểm tra lại địa chỉ hoặc cập nhật sau.");
                  ("user", user_dict) ]) 201)
      else
        respond (Response
          (JObj [ ("message", JStr "Đăng ký thành công");
                  ("user", user_dict) ]) 201)
  | Some e =>
      emit Rollback;;
      emit (Print ("Lỗi database: " +:+ e));;
      respond (Response
        (JObj [("error", JStr "Lỗi máy chủ nội bộ khi đăng ký")]) 500)
  end.

Definition register_donor (data : gmap string (option string))
  : handler response :=
  if negb (forallb (filled data) required_fields) then
    respond (Response
      (JObj [("error", JStr "Thiếu thông tin bắt buộc hoặc thông tin rỗng")])
      400)
  else
    users ← rows;
    if existsb (same_email_or_phone (item data "email") (item data "phone"))
         users
    then
      respond (Response
        (JObj [("error", JStr "Email hoặc số điện thoại đã tồn tại")]) 409)
    else
      let address := item data "address" in
      coords ← geocode_registration address;
      last_donation_date ← parse_last_donation data;
      let new_user :=
        User.Make (new_id users)
          (Some (item data "fullName"))
          (Some (item data "phone"))
          (item data "email")
          (item data "password")
          "donor"
          (Some address)
          coords.1 coords.2
          (Some (item data "bloodType"))
          last_donation_date in
      add_and_commit new_user.

End register_donor.

(** [/login] *)
Definition login (data : gmap string (option string)) : handler response :=
  if negb (truthy (data_get data "email"))
     || negb (truthy (data_get data "password"))
  then
    respond (Response (JObj [("error", JStr "Thiếu email hoặc mật khẩu")]) 400)
  else
    users ← rows;
    match List.find (λ row, String.eqb (User.email row) (item data "email"))
            users with
    | Some user =>
        if String.eqb (User.password user) (item data "password") then
          let user_data := User.to_dict user in
          respond (Response
            (JObj [ ("message", JStr "Đăng nhập thành công");
                    ("user", user_data) ]) 200)
        else
          respond (Response
            (JObj [("error", JStr "Email hoặc mật khẩu không chính xác")]) 401)
    | None =>
        respond (Response
          (JObj [("error", JStr "Email hoặc mật khẩu không chính xác")]) 401)
    end.

(** [/users] *)
Definition get_users : handler response :=
  users ← rows;
  respond (Response
    (JObj [ ("count", JInt (Z.of_nat (length users)));
            ("users", JArr (User.to_dict <$> users)) ]) 200).

(** [/hospitals], for the rows [Hospital.query.all()] returns. *)
Definition get_hospitals (hospitals : list Hospital.t) : handler response :=
  respond (Response
    (JObj [ ("count", JInt (Z.of_nat (length hospitals)));
            ("hospitals", JArr (Hospital.to_dict <$> hospitals)) ]) 200).

(** ** Eligible donors *)

(** A donor eligible for a request of [blood_type]: role "donor", both
    coordinates present, and exactly that blood type. *)
Definition eligible (blood_type : string) (u : User.t) : Prop :=
  User.role u = "donor"
  ∧ is_Some (User.lat u) ∧ is_Some (User.lng u)
  ∧ User.blood_type u = Some blood_type.

(** ** Vocabulary of the statements about validation *)

(** A required field that is missing, [null] or the empty string. *)
Definition absent_or_empty (data : gmap string json) (k : string) : Prop :=
  match data !! k with
  | None | Some JNull | Some (JStr "") => True
  | Some _ => False
  end.

(** The statement of C5 for one request: if a required field is missing or
    empty, the response is a client error given before any store access or
    call of the pipeline. *)
Definition rejects_incomplete_request
    (Hospital_query_get : json → option Hospital.t)
    (ai_filter :
       option (Hospital.t → list User.t → json → exn + list match_entry))
    (data : gmap string json) (users : list User.t) : Prop :=
  absent_or_empty data "hospital_id" ∨ absent_or_empty data "blood_type" →
  ∃ body,
    run (create_alert Hospital_query_get ai_filter data) users
      = (Response body 400, users, []).

(** ** Vocabulary of the statements about a failing engine *)

(** An engine that raises [e] whenever it is called. *)
Definition raising (e : exn) (hospital : Hospital.t) (users : list User.t)
    (radius_km : json) : exn + list match_entry :=
  inl e.

(** The statement of C8 for one request: whichever exception the engine
    raises, the response is an internal error without result field, the
    table is unchanged, and the failure is opaque: the response is the same
    for every exception, so that it tells the caller nothing of the
    fault. *)
Definition fails_opaquely
    (Hospital_query_get : json → option Hospital.t)
    (data : gmap string json) (users : list User.t) : Prop :=
  ∀ e,
    (∃ body,
       the_response
         (run (create_alert Hospital_query_get (Some (raising e)) data) users)
         = Response body 500
       ∧ json_field "top_50_users" body = None)
    ∧ the_table
        (run (create_alert Hospital_query_get (Some (raising e)) data) users)
      = users
    ∧ ∀ e',
        the_response
          (run (create_alert Hospital_query_get (Some (raising e')) data)
             users)
        = the_response
            (run (create_alert Hospital_query_get (Some (raising e)) data)
               users).

(** ** Vocabulary of the statements about the profile update *)

(** The columns that no profile update writes. *)
Definition keeps_identity (u u' : User.t) : Prop :=
  User.id u' = User.id u ∧ User.email u' = User.email u
  ∧ User.password u' = User.password u ∧ User.role u' = User.role u.

Definition keeps_coords (u u' : User.t) : Prop :=
  User.lat u' = User.lat u ∧ User.lng u' = User.lng u.

(** The address of the pending object and [geocoding_needed] after one
    turn of the loop. *)
Definition address_step (data : gmap string (option string))
    (old_address : option string) (s : option string * bool) (field : string)
  : option string * bool :=
  if String.eqb field "address" then
    match data !! field with
    | Some value => (value, if bool_decide (value ≠ old_address) then true else s.2)
    | None => s
    end
  else s.

(** What the loop leaves behind: a 400 response, or a pending object that
    differs from the loaded one in the allowed text fields only. *)
Definition loop_result (user : User.t) (s : option string * bool)
    (res : response + User.t * bool) : Prop :=
  match res with
  | inl r => ∃ msg, r = Response (JObj [("error", JStr msg)]) 400
  | inr (user', geocoding_needed) =>
      keeps_identity user user' ∧ keeps_coords user user'
      ∧ (User.address user', geocoding_needed) = s
  end.

(** Whether the request carries an address other than the stored one. *)
Definition address_changed (data : gmap string (option string))
    (user : User.t) : bool :=
  match data !! "address" with
  | Some value => bool_decide (value ≠ User.address user)
  | None => false
  end.

(** The location obtained by geocoding an address: the coordinates found,
    and nothing when the address cannot be resolved. *)
Definition geocoded (geocode_address : string → geo_result)
    (address : option string) : option Q * option Q :=
  match address with
  | Some a =>
      match geocode_address a with
      | Coords la lo => (Some la, Some lo)
      | NoCoords | GeoError _ => (None, None)
      end
  | None => (None, None)
  end.

(** The statement of C9 for one request: if the update succeeds and the
    request carries an address other than the stored one, the stored
    location of the user is the one obtained by geocoding the new
    address. *)
Definition rederives_location (geocode_address : string → geo_result)
    (parse : string → option date)
    (commit_error : list User.t → option string) (user_id : Z)
    (data : gmap string (option string)) (users : list User.t) : Prop :=
  ∀ user new_address body users' log final,
    List.find (λ row, bool_decide (User.id row = user_id)) users = Some user →
    data !! "address" = Some new_address →
    new_address ≠ User.address user →
    run (update_user_profile geocode_address parse commit_error user_id data)
      users = (Response body 200, users', log) →
    List.find (λ row, bool_decide (User.id row = user_id)) users' = Some final →
    (User.lat final, User.lng final) = geocoded geocode_address new_address.

(** ** Vocabulary of the statements about registration and login *)

(** The date string of the request, when it has a non-empty one. *)
Definition given_date (data : gmap string (option string)) : option string :=
  if truthy (data_get data "lastDonationDate")
  then Some (item data "lastDonationDate") else None.

(** The row a registration adds for the request [data]. *)
Definition registered_row (geocode_address : string → geo_result)
    (parse : string → option date) (new_id : list User.t → Z)
    (data : gmap string (option string)) (users : list User.t) : User.t :=
  User.Make (new_id users)
    (Some (item data "fullName")) (Some (item data "phone"))
    (item data "email") (item data "password") "donor"
    (Some (item data "address"))
    (geocoded geocode_address (Some (item data "address"))).1
    (geocoded geocode_address (Some (item data "address"))).2
    (Some (item data "bloodType"))
    (given_date data ≫= parse).

(** The body of the response to a registration that added [new_user]. *)
Definition registration_body (new_user : User.t) : json :=
  if bool_decide (User.lat new_user = None)
     || bool_decide (User.lng new_user = None)
  then
    JObj [ ("message", JStr "Đăng ký thành công");
           ("warning", JStr
             "Không thể xác định vị trí chính xác. Vui lòng kiểm tra lại địa chỉ hoặc cập nhật sau.");
           ("user", User.to_dict new_user) ]
  else
    JObj [ ("message", JStr "Đăng ký thành công");
           ("user", User.to_dict new_user) ].

(** Some row holds the email or the phone of the request. *)
Definition already_registered (data : gmap string (option string))
    (users : list User.t) : Prop :=
  ∃ row, row ∈ users
         ∧ (User.email row = item data "email"
            ∨ User.phone row = Some (item data "phone")).

(** The JSON body of a response; [abort] sends none. *)
Definition response_body (r : response) : json :=
  match r with
  | Response body _ => body
  | Abort _ => JNull
  end.

(** A JSON value has the key [k] at some depth. *)
Fixpoint has_key (k : string) (j : json) : bool :=
  match j with
  | JArr items => existsb (has_key k) items
  | JObj fields =>
      existsb (λ kv, let '(k', v) := kv in String.eqb k' k || has_key k v)
        fields
  | _ => false
  end.

(** ** Vocabulary of the statements about the fields of an update *)

Definition text_fields : list string :=
  ["name"; "phone"; "address"; "blood_type"].

(** One turn of the loop of [update_user_profile] for a text field, on the
    pending object and [geocoding_needed]. *)
Definition edit_step (data : gmap string (option string))
    (old_address : option string) (s : User.t * bool) (field : string)
  : User.t * bool :=
  match data !! field with
  | Some value =>
      (setattr field value s.1,
       if String.eqb field "address" && bool_decide (value ≠ old_address)
       then true else s.2)
  | None => s
  end.

(** The request gives a date of last donation that does not parse. *)
Definition date_rejected (parse : string → option date)
    (data : gmap string (option string)) : bool :=
  match data !! "last_donation" with
  | Some date_str =>
      truthy date_str
      && match parse (default "" date_str) with
         | Some _ => false
         | None => true
         end
  | None => false
  end.

(** The date of last donation after the loop, when it is not rejected. *)
Definition edited_date (parse : string → option date)
    (data : gmap string (option string)) (user : User.t) : option date :=
  match data !! "last_donation" with
  | Some date_str =>
      if truthy date_str then parse (default "" date_str) else None
  | None => User.last_donation user
  end.

Definition login_failed : response :=
  Response (JObj [("error", JStr "Email hoặc mật khẩu không chính xác")]) 401.

Definition logged_in (user : User.t) : response :=
  Response (JObj [ ("message", JStr "Đăng nhập thành công");
                   ("user", User.to_dict user) ]) 200.

(** ** A small store and request, used to exercise the statements *)

Definition sample_hospital : Hospital.t :=
  Hospital.Make 1 "Bệnh viện Trung tâm" 0 0.

Definition sample_hospitals (key : json) : option Hospital.t :=
  match key with
  | JInt 1 => Some sample_hospital
  | _ => None
  end.

Definition sample_donor (id : Z) (blood_type : string) (lat lng : Q) : User.t :=
  User.Make id (Some "Nguyễn Văn A") (Some (pretty id))
    (pretty id +:+ "@example.org") "secret" "donor" (Some "1 Lê Lợi")
    (Some lat) (Some lng) (Some blood_type) None.

(** A stand-in for the great-circle distance: city-block distance at 111 km
    per degree. *)
Definition sample_distance (a b : GeoPoint) : Q :=
  111 * (Qabs (gp_lat a - gp_lat b) + Qabs (gp_lng a - gp_lng b)).

Definition sample_scorer (u : User.t) (distance : Q) : Q := 100 - distance.

Definition sample_engine : Hospital.t → list User.t → json → exn + list match_entry :=
  filter_nearby_users sample_distance sample_scorer.

(** Donor 2 is exactly 10 km away, donor 3 has another blood type, donor 4
    is at (10, 10). *)
Definition sample_users : list User.t :=
  [ sample_donor 1 "A+" (3 # 111) (4 # 111);
    sample_donor 2 "A+" (10 # 111) 0;
    sample_donor 3 "B+" (1 # 111) (1 # 111);
    sample_donor 4 "A+" 10 10;
    sample_donor 5 "A+" (1 # 111) (1 # 111) ].

Definition sample_alert : gmap string json :=
  {[ "hospital_id" := JInt 1; "blood_type" := JStr "A+" ]}.

Definition sample_geocoder (address : string) : geo_result :=
  if String.eqb address "54 Nguyễn Du, Hà Nội" then Coords 21 105
  else NoCoords.

Definition sample_parse (date_str : string) : option date :=
  if String.eqb date_str "2024-01-02" then Some (Date 2024 1 2) else None.

Definition sample_commit (pending : list User.t) : option string := None.

(** Both keys are present and the blood type is the empty string. *)
Definition empty_blood_type_alert : gmap string json :=
  {[ "hospital_id" := JInt 1; "blood_type" := JStr "" ]}.

Definition missing_blood_type_alert : gmap string json :=
  {[ "hospital_id" := JInt 1; "radius_km" := JInt 5 ]}.

Definition unknown_hospital_alert : gmap string json :=
  {[ "hospital_id" := JInt 7; "blood_type" := JStr "A+" ]}.

(** An engine that always fails, with a message that names internals. *)
Definition failing_engine (hospital : Hospital.t) (users : list User.t)
    (radius_km : json) : exn + list match_entry :=
  inl (Exception "KeyError: 'lat' in ai_filter.py, line 12").


Definition one_donor : list User.t :=
  [sample_donor 1 "A+" (3 # 111) (4 # 111)].

Definition sample_profile : gmap string (option string) :=
  {[ "address" := Some "54 Nguyễn Du, Hà Nội";
     "phone" := Some "0900000001";
     "role" := Some "admin";
     "last_donation" := Some "2024-01-02" ]}.

Definition cleared_address : gmap string (option string) :=
  {[ "address" := Some "" ]}.

Definition moved_profile : gmap string (option string) :=
  {[ "address" := Some "54 Nguyễn Du, Hà Nội" ]}.

Definition sample_new_id (users : list User.t) : Z :=
  (1 + foldr Z.max 0 (User.id <$> users))%Z.

Definition sample_parse_message (date_str : string) : string :=
  "Unknown string format: " +:+ date_str.

Definition sample_registration : gmap string (option string) :=
  {[ "fullName" := Some "Lê Thị B"; "email" := Some "b@example.org";
     "phone" := Some "0911000222"; "password" := Some "hunter2";
     "address" := Some "54 Nguyễn Du, Hà Nội"; "bloodType" := Some "O-" ]}.

Definition sample_login : gmap string (option string) :=
  {[ "email" := Some "b@example.org"; "password" := Some "hunter2" ]}.

Definition refusing_commit (pending : list User.t) : option string :=
  Some "UNIQUE constraint failed: users.phone".

Definition raising_geocoder (address : string) : geo_result :=
  GeoError "HTTPSConnectionPool: Max retries exceeded".

Definition bad_date_profile : gmap string (option string) :=
  {[ "name" := Some "Trần C"; "address" := Some "54 Nguyễn Du, Hà Nội";
     "last_donation" := Some "32/13/2024" ]}.

Definition privileged_profile : gmap string (option string) :=
  {[ "role" := Some "admin"; "email" := Some "root@example.org";
     "password" := Some "x"; "id" := Some "1"; "lat" := Some "0" ]}.

(** * Properties *)

(** ** The outcomes of [create_alert] *)

Lemma required_fields_check (data : gmap string json) :
  forallb (λ k, bool_decide (is_Some (data !! k))) required_alert_fields = true
  ↔ has_required_fields data.
Proof.
  unfold required_alert_fields, has_required_fields. simpl.
  rewrite andb_true_r, andb_true_iff, !bool_decide_eq_true. done.
Qed.

Section create_alert_outcomes.

Variable Hospital_query_get : json → option Hospital.t.
Variable ai_filter :
  option (Hospital.t → list User.t → json → exn + list match_entry).
Variable data : gmap string json.
Variable users : list User.t.

Let hospital_id : json := data !!! "hospital_id".
Let blood_type_needed : json := data !!! "blood_type".
Let radius_km : json := default (JInt 10) (data !! "radius_km").
Let suitable_users : list User.t := filter (suitable blood_type_needed) users.
Let outcome := run (create_alert Hospital_query_get ai_filter data) users.

(** Validation failure: nothing is looked up. *)
Lemma create_alert_missing_field :
  ¬ has_required_fields data →
  outcome =
    (Response (JObj [("error", JStr "Thiếu hospital_id hoặc blood_type")]) 400,
     users, []).
Proof.
  intros Hmiss. unfold outcome, create_alert.
  destruct (forallb _ _) eqn:Hall.
  - by apply required_fields_check in Hall.
  - done.
Qed.

(** Hospital not found: one lookup and nothing else. *)
Lemma create_alert_not_found :
  has_required_fields data →
  Hospital_query_get hospital_id = None →
  outcome =
    (Response (JObj [("error", JStr "Không tìm thấy bệnh viện")]) 404,
     users, [HospitalGet hospital_id]).
Proof.
  intros Hreq Hnone. unfold outcome, create_alert.
  apply required_fields_check in Hreq. rewrite Hreq. simpl.
  unfold run, mbind, handler_bind, emit. simpl.
  fold hospital_id. by rewrite Hnone.
Qed.

(** The import of [ai_filter] fails. *)
Lemma create_alert_import_error hospital :
  has_required_fields data →
  Hospital_query_get hospital_id = Some hospital →
  ai_filter = None →
  outcome =
    (Response import_error_body 500, users,
     [HospitalGet hospital_id; UserFilterAll blood_type_needed;
      ImportAiFilter]).
Proof.
  intros Hreq Hsome Hnone. unfold outcome, create_alert.
  apply required_fields_check in Hreq. rewrite Hreq. simpl.
  unfold run, mbind, handler_bind, emit. simpl.
  fold hospital_id. rewrite Hsome. simpl. by rewrite Hnone.
Qed.

(** The pipeline ran: its result decides the response. *)
Lemma create_alert_called hospital filter_nearby_users :
  has_required_fields data →
  Hospital_query_get hospital_id = Some hospital →
  ai_filter = Some filter_nearby_users →
  outcome =
    match filter_nearby_users hospital suitable_users radius_km with
    | inr results =>
        (Response (success_body hospital blood_type_needed radius_km results)
           200,
         users,
         [HospitalGet hospital_id; UserFilterAll blood_type_needed;
          ImportAiFilter;
          CallFilterNearbyUsers hospital suitable_users radius_km])
    | inl (ImportError _) =>
        (Response import_error_body 500, users,
         [HospitalGet hospital_id; UserFilterAll blood_type_needed;
          ImportAiFilter;
          CallFilterNearbyUsers hospital suitable_users radius_km])
    | inl (Exception e) =>
        (Response filter_error_body 500, users,
         [HospitalGet hospital_id; UserFilterAll blood_type_needed;
          ImportAiFilter;
          CallFilterNearbyUsers hospital suitable_users radius_km;
          Print ("Lỗi trong quá trình lọc AI: " +:+ e)])
    end.
Proof.
  intros Hreq Hsome Hf. unfold outcome, create_alert.
  apply required_fields_check in Hreq. rewrite Hreq. simpl.
  unfold run, mbind, handler_bind, emit. simpl.
  fold hospital_id. rewrite Hsome. simpl. rewrite Hf. simpl.
  fold blood_type_needed radius_km suitable_users.
  destruct (filter_nearby_users _ _ _) as [[msg|msg]|results]; done.
Qed.

(** A response with status 200 comes from a completed pipeline. *)
Lemma create_alert_success_inv body users' log :
  outcome = (Response body 200, users', log) →
  ∃ hospital filter_nearby_users results,
    has_required_fields data
    ∧ Hospital_query_get hospital_id = Some hospital
    ∧ ai_filter = Some filter_nearby_users
    ∧ filter_nearby_users hospital suitable_users radius_km = inr results
    ∧ body = success_body hospital blood_type_needed radius_km results
    ∧ users' = users.
Proof.
  intros Hout.
  destruct (decide (has_required_fields data)) as [Hreq|Hmiss];
    [|by rewrite create_alert_missing_field in Hout].
  destruct (Hospital_query_get hospital_id) as [hospital|] eqn:Hh;
    [|by rewrite create_alert_not_found in Hout].
  assert (ai_filter = None ∨ ∃ f, ai_filter = Some f) as [Hai|[f Hai]]
    by (destruct ai_filter; eauto);
    [by rewrite (create_alert_import_error hospital) in Hout|].
  rewrite (create_alert_called hospital f) in Hout by done.
  destruct (f hospital suitable_users radius_km) as [[msg|msg]|results] eqn:Hf;
    [done..|].
  exists hospital, f, results. by simplify_eq.
Qed.

End create_alert_outcomes.

(** ** The ranking rule is a total preorder *)

Lemma rank_le_spec (a b : match_entry) :
  rank_le a b ↔
    (r_ai_score b < r_ai_score a)%Q
    ∨ (r_ai_score b == r_ai_score a
       ∧ ((r_distance a < r_distance b)%Q
          ∨ (r_distance a == r_distance b
             ∧ (User.id (r_user a) ≤ User.id (r_user b))%Z))).
Proof.
  unfold rank_le, rank_leb.
  destruct (Qcompare_spec (r_ai_score b) (r_ai_score a)) as [Hs|Hs|Hs];
    [destruct (Qcompare_spec (r_distance a) (r_distance b)) as [Hd|Hd|Hd]|..].
  - rewrite bool_decide_spec. split; [by eauto 6|].
    intros [?|[_ [?|[_ ?]]]]; [lra|lra|done].
  - split; [by eauto|done].
  - split; [done|]. intros [?|[_ [?|[? _]]]]; lra.
  - split; [by eauto|done].
  - split; [done|]. intros [?|[? _]]; lra.
Qed.

#[global] Instance rank_le_total : Total rank_le.
Proof.
  intros a b. rewrite !rank_le_spec.
  destruct (Qlt_le_dec (r_ai_score b) (r_ai_score a)) as [?|Hs1]; [by left; left|].
  destruct (Qlt_le_dec (r_ai_score a) (r_ai_score b)) as [?|Hs2]; [by right; left|].
  assert (r_ai_score b == r_ai_score a) as Hs by lra.
  destruct (Qlt_le_dec (r_distance a) (r_distance b)) as [?|Hd1];
    [by left; right; split; [|left]|].
  destruct (Qlt_le_dec (r_distance b) (r_distance a)) as [?|Hd2];
    [by right; right; split; [symmetry|left]|].
  assert (r_distance a == r_distance b) as Hd by lra.
  destruct (Z.le_ge_cases (User.id (r_user a)) (User.id (r_user b)));
    [left|right]; right; (split; [done || by symmetry|]);
    right; (split; [done || by symmetry|]); done.
Qed.

#[global] Instance rank_le_trans : Transitive rank_le.
Proof.
  intros a b c. rewrite !rank_le_spec.
  intros [?|[Hs1 Hd1]] [?|[Hs2 Hd2]]; [left; lra..|].
  right. split; [lra|].
  destruct Hd1 as [?|[Hd1 ?]], Hd2 as [?|[Hd2 ?]]; [left; lra..|].
  right. split; [lra|lia].
Qed.


(** ** What the engine returns *)

Section engine_facts.

Variable distanceKm : GeoPoint → GeoPoint → Q.
Variable scorer : User.t → Q → Q.

Lemma mapM_located (users : list User.t) candidates :
  mapM located users = Some candidates → candidates = omap located users.
Proof.
  rewrite mapM_Some. induction 1 as [|u c us cs Hu _ IH]; [done|].
  simpl. by rewrite Hu, IH.
Qed.

Lemma elem_of_located (users : list User.t) u g :
  (u, g) ∈ omap located users ↔ u ∈ users ∧ donor_location u = Some g.
Proof.
  rewrite list_elem_of_omap. unfold located. split.
  - intros (u' & Hin & Hloc).
    destruct (donor_location u') as [g'|] eqn:Hg; simplify_eq/=. done.
  - intros [Hin Hg]. exists u. by rewrite Hg.
Qed.

Lemma elem_of_distance_filter origin radius
    (candidates : list (User.t * GeoPoint)) u d :
  (u, d) ∈ distance_filter distanceKm origin radius candidates ↔
    (0 < radius)%Q ∧ (d <= radius)%Q
    ∧ ∃ g, (u, g) ∈ candidates ∧ d = distanceKm origin g.
Proof.
  unfold distance_filter. destruct (Qle_bool radius 0) eqn:Hr.
  - apply Qle_bool_iff in Hr. split; [by intros ?%elem_of_nil|].
    intros (? & _). lra.
  - assert (0 < radius)%Q as Hpos.
    { apply Qnot_le_lt. intros ?%Qle_bool_iff. congruence. }
    rewrite list_elem_of_filter, list_elem_of_fmap. simpl.
    rewrite Is_true_true, Qle_bool_iff. split.
    + intros (Hd & [u' g] & ? & Hin); simplify_eq/=. eauto.
    + intros (_ & Hd & g & Hin & ->). split; [done|]. by exists (u, g).
Qed.

Lemma filter_nearby_users_inr hospital (users : list User.t) radius_km
    results :
  filter_nearby_users distanceKm scorer hospital users radius_km
    = inr results ↔
  ∃ radius,
    radius_of_json radius_km = Some radius
    ∧ Forall (λ u, is_Some (donor_location u)) users
    ∧ results =
        pipeline distanceKm scorer hospital radius (omap located users).
Proof.
  unfold filter_nearby_users. split.
  - destruct (radius_of_json radius_km) as [radius|]; [|done].
    destruct (mapM located users) as [candidates|] eqn:Hm; [|done].
    intros [= <-]. exists radius. split; [done|]. split.
    + assert (is_Some (mapM located users)) as Hs by eauto.
      apply mapM_is_Some in Hs. eapply Forall_impl; [exact Hs|].
      intros u. simpl. unfold located.
      destruct (donor_location u); [by eauto|by intros [? ?]].
    + by rewrite (mapM_located _ _ Hm).
  - intros (radius & -> & Hall & ->).
    assert (is_Some (mapM located users)) as [candidates Hm].
    { apply mapM_is_Some. eapply Forall_impl; [exact Hall|].
      intros u [g Hg]. simpl. unfold located. rewrite Hg. by eauto. }
    rewrite Hm. by rewrite (mapM_located _ _ Hm).
Qed.

(** The members of the ranked list: the located candidates within a
    positive radius. *)
Lemma elem_of_ranked hospital radius (users : list User.t) r :
  r ∈ pipeline distanceKm scorer hospital radius (omap located users) ↔
  ∃ u g, u ∈ users ∧ donor_location u = Some g
         ∧ r = entry_of distanceKm scorer hospital u g
         ∧ (0 < radius)%Q ∧ (r_distance r <= radius)%Q.
Proof.
  unfold pipeline. rewrite merge_sort_Permutation, list_elem_of_fmap. split.
  - intros ([u d] & -> & Hin).
    apply elem_of_distance_filter in Hin as (Hpos & Hd & g & Hg & ->).
    apply elem_of_located in Hg as [Hu Hg]. by exists u, g.
  - intros (u & g & Hu & Hg & -> & Hpos & Hd).
    exists (u, distanceKm (hospital_location hospital) g). split; [done|].
    apply elem_of_distance_filter. split_and!; [done..|].
    exists g. split; [|done]. by apply elem_of_located.
Qed.



Lemma elem_of_matches hospital radius blood_type_needed
    (users : list User.t) r :
  r ∈ matches distanceKm scorer hospital radius blood_type_needed users ↔
  ∃ u g, u ∈ users ∧ suitable blood_type_needed u
         ∧ donor_location u = Some g
         ∧ r = entry_of distanceKm scorer hospital u g
         ∧ (0 < radius)%Q ∧ (r_distance r <= radius)%Q.
Proof.
  unfold matches. rewrite elem_of_ranked. split.
  - intros (u & g & [Hs Hu]%list_elem_of_filter & Hrest). by exists u, g.
  - intros (u & g & Hu & Hs & Hrest). exists u, g.
    by rewrite list_elem_of_filter.
Qed.


Section served.

Variable Hospital_query_get : json → option Hospital.t.
Variable data : gmap string json.
Variable users : list User.t.


Lemma create_alert_served_inv body users' log :
  run (create_alert Hospital_query_get
         (Some (filter_nearby_users distanceKm scorer)) data) users
    = (Response body 200, users', log) →
  ∃ hospital radius,
    has_required_fields data
    ∧ Hospital_query_get (data !!! "hospital_id") = Some hospital
    ∧ radius_of_json (default (JInt 10) (data !! "radius_km")) = Some radius
    ∧ body =
        success_body hospital (data !!! "blood_type")
          (default (JInt 10) (data !! "radius_km"))
          (matches distanceKm scorer hospital radius (data !!! "blood_type")
             users)
    ∧ users' = users.
Proof.
  intros (hospital & f & results & Hreq & Hh & [= <-] & Hf & -> & ->)
    %create_alert_success_inv.
  apply filter_nearby_users_inr in Hf as (radius & Hr & _ & ->).
  by exists hospital, radius.
Qed.

End served.

End engine_facts.

(** ** The orchestrator: validation, lookup, truncation, failure *)

(** An event that differs from every element of an explicit log. *)
Ltac absent_from_log :=
  let Hin := fresh "Hin" in
  intros Hin;
  repeat (apply elem_of_cons in Hin as [Hin|Hin]; [discriminate Hin|]);
  by apply elem_of_nil in Hin.

(** C2. On success the returned list holds at most 50 entries, the first 50
    of the engine's list; [total_matched] is the length of the whole list,
    hence at least the length of the returned one. *)
Theorem create_alert_truncation_bound
    Hospital_query_get ai_filter (data : gmap string json)
    (users : list User.t) body users' log :
  run (create_alert Hospital_query_get ai_filter data) users
    = (Response body 200, users', log) →
  ∃ hospital filter_nearby_users results top,
    ai_filter = Some filter_nearby_users
    ∧ filter_nearby_users hospital
        (filter (suitable (data !!! "blood_type")) users)
        (default (JInt 10) (data !! "radius_km")) = inr results
    ∧ json_field "total_matched" body
        = Some (JInt (Z.of_nat (length results)))
    ∧ json_field "top_50_users" body = Some (JArr top)
    ∧ top = alert_entry <$> take 50 results
    ∧ length top ≤ 50
    ∧ length top ≤ length results.
Proof.
  intros (hospital & f & results & _ & _ & Hai & Hf & -> & _)
    %create_alert_success_inv.
  exists hospital, f, results, (alert_entry <$> take 50 results).
  split_and!; [done..| |].
  - rewrite length_fmap, length_take. lia.
  - rewrite length_fmap, length_take. lia.
Qed.

Lemma create_alert_truncation_bound_witness :
  ∃ body,
    the_response (run (create_alert sample_hospitals (Some sample_engine)
                         sample_alert) sample_users) = Response body 200
    ∧ ∃ hospital filter_nearby_users results top,
        Some sample_engine = Some filter_nearby_users
        ∧ filter_nearby_users hospital
            (filter (suitable (sample_alert !!! "blood_type")) sample_users)
            (default (JInt 10) (sample_alert !! "radius_km")) = inr results
        ∧ json_field "total_matched" body
            = Some (JInt (Z.of_nat (length results)))
        ∧ json_field "top_50_users" body = Some (JArr top)
        ∧ top = alert_entry <$> take 50 results
        ∧ length top ≤ 50
        ∧ length top ≤ length results.
Proof.
  eexists. split; [vm_compute; reflexivity|].
  eapply (create_alert_truncation_bound sample_hospitals (Some sample_engine)
            sample_alert sample_users).
  vm_compute. reflexivity.
Defined.

Lemma empty_blood_type_alert_fields : has_required_fields empty_blood_type_alert.
Proof. split; by vm_compute; eauto. Qed.

(** A request whose [blood_type] is present but empty passes the check of
    [required_alert_fields], which tests the keys only: whatever the store
    and the engine, the hospital is looked up and the response is not the
    validation error. *)
Lemma create_alert_accepts_empty_blood_type
    Hospital_query_get ai_filter (users : list User.t) :
  let outcome :=
    run (create_alert Hospital_query_get ai_filter empty_blood_type_alert)
      users in
  the_response outcome
    ≠ Response (JObj [("error", JStr "Thiếu hospital_id hoặc blood_type")]) 400
  ∧ HospitalGet (JInt 1) ∈ the_log outcome.
Proof.
  pose proof empty_blood_type_alert_fields as Hreq.
  assert (empty_blood_type_alert !!! "hospital_id" = JInt 1) as Hid
    by (vm_compute; reflexivity).
  simpl.
  destruct (Hospital_query_get (JInt 1)) as [hospital|] eqn:Hh.
  - destruct ai_filter as [f|] eqn:Hai.
    + rewrite (create_alert_called _ _ _ _ hospital f Hreq)
        by (rewrite ?Hid; done).
      rewrite Hid.
      destruct (f _ _ _) as [[msg|msg]|results]; (split; [done|]);
        unfold the_log; simpl; by left.
    + rewrite (create_alert_import_error _ _ _ _ hospital Hreq)
        by (rewrite ?Hid; done).
      rewrite Hid. split; [done|]. unfold the_log; simpl; by left.
  - rewrite (create_alert_not_found _ _ _ _ Hreq) by (by rewrite Hid).
    rewrite Hid. split; [done|]. unfold the_log; simpl; by left.
Qed.

(** On the sample store the request is served as a match with no donor. *)
Example create_alert_empty_blood_type_served :
  the_response
    (run (create_alert sample_hospitals (Some sample_engine)
            empty_blood_type_alert) sample_users)
  = Response
      (success_body sample_hospital (JStr "") (JInt 10) []) 200.
Proof. vm_compute. reflexivity. Qed.

(** C5, as stated, fails: a [blood_type] that is present and empty is not
    rejected; the hospital is looked up and the pipeline runs. *)
Lemma empty_blood_type_not_rejected :
  ¬ rejects_incomplete_request sample_hospitals (Some sample_engine)
      empty_blood_type_alert sample_users.
Proof.
  intros Hclaim. destruct Hclaim as [body Hrun].
  - right. vm_compute. exact I.
  - assert (the_response
              (run (create_alert sample_hospitals (Some sample_engine)
                      empty_blood_type_alert) sample_users)
            = Response body 400) as Hresp by (by rewrite Hrun).
    rewrite create_alert_empty_blood_type_served in Hresp.
    discriminate Hresp.
Qed.

(** C5, amended. When the key [hospital_id] or the key [blood_type] is
    missing from the request, the response is the validation error with
    status 400, and nothing has been done before it: no hospital lookup, no
    donor query, no import and no call of the engine. *)
Theorem create_alert_validation_error
    Hospital_query_get ai_filter (data : gmap string json)
    (users : list User.t) :
  data !! "hospital_id" = None ∨ data !! "blood_type" = None →
  ∃ body,
    run (create_alert Hospital_query_get ai_filter data) users
      = (Response body 400, users, [])
    ∧ json_field "error" body
        = Some (JStr "Thiếu hospital_id hoặc blood_type")
    ∧ json_field "top_50_users" body = None.
Proof.
  intros Hmiss. eexists. split.
  - apply create_alert_missing_field. intros [[? Hh] [? Hb]].
    destruct Hmiss; congruence.
  - done.
Qed.

Lemma create_alert_validation_error_witness :
  ∃ body,
    run (create_alert sample_hospitals (Some sample_engine)
           missing_blood_type_alert) sample_users
      = (Response body 400, sample_users, [])
    ∧ json_field "error" body
        = Some (JStr "Thiếu hospital_id hoặc blood_type")
    ∧ json_field "top_50_users" body = None.
Proof.
  apply (create_alert_validation_error sample_hospitals (Some sample_engine)
           missing_blood_type_alert sample_users).
  right. vm_compute. reflexivity.
Defined.

(** C6. When both keys are present and the hospital id resolves to nothing,
    the response is the not-found error with status 404 and no
    [top_50_users] field; the only effect is the hospital lookup: no donor
    query, no import and no call of the engine. *)
Theorem create_alert_unknown_hospital
    Hospital_query_get ai_filter (data : gmap string json)
    (users : list User.t) :
  has_required_fields data →
  Hospital_query_get (data !!! "hospital_id") = None →
  ∃ body,
    run (create_alert Hospital_query_get ai_filter data) users
      = (Response body 404, users, [HospitalGet (data !!! "hospital_id")])
    ∧ json_field "error" body = Some (JStr "Không tìm thấy bệnh viện")
    ∧ json_field "top_50_users" body = None.
Proof.
  intros Hreq Hnone. eexists. split; [by apply create_alert_not_found|done].
Qed.

Lemma create_alert_unknown_hospital_witness :
  ∃ body,
    run (create_alert sample_hospitals (Some sample_engine)
           unknown_hospital_alert) sample_users
      = (Response body 404, sample_users,
         [HospitalGet (unknown_hospital_alert !!! "hospital_id")])
    ∧ json_field "error" body = Some (JStr "Không tìm thấy bệnh viện")
    ∧ json_field "top_50_users" body = None.
Proof.
  apply (create_alert_unknown_hospital sample_hospitals (Some sample_engine)
           unknown_hospital_alert sample_users).
  - split; vm_compute; eauto.
  - vm_compute. reflexivity.
Defined.

(** An [ImportError] raised inside the engine is caught by the clause
    written for a module that cannot be imported: the response names the
    file of the engine. *)
Lemma create_alert_import_error_in_engine :
  the_response
    (run (create_alert sample_hospitals
            (Some (raising (ImportError "No module named 'numpy'")))
            sample_alert) sample_users)
  = Response
      (JObj [("error",
         JStr "Không tìm thấy file ai_filter.py hoặc file có lỗi.")]) 500.
Proof. vm_compute. reflexivity. Qed.

(** Any other exception is answered with the generic message. *)
Lemma create_alert_exception_in_engine :
  the_response
    (run (create_alert sample_hospitals
            (Some (raising (Exception "KeyError: 'lat'")))
            sample_alert) sample_users)
  = Response
      (JObj [("error", JStr "Lỗi máy chủ nội bộ khi lọc người dùng")]) 500.
Proof. vm_compute. reflexivity. Qed.

(** C8, as stated, fails: the failure is not opaque. An [ImportError]
    raised inside the engine is answered with the message that names the
    file [ai_filter.py], any other exception with the generic message, so
    the response tells the caller which of the two faults occurred. *)
Lemma engine_failure_not_opaque :
  ¬ fails_opaquely sample_hospitals sample_alert sample_users.
Proof.
  intros Hclaim.
  destruct (Hclaim (ImportError "No module named 'numpy'"))
    as (_ & _ & Hsame).
  specialize (Hsame (Exception "KeyError: 'lat'")).
  rewrite create_alert_import_error_in_engine,
    create_alert_exception_in_engine in Hsame.
  discriminate Hsame.
Qed.

(** C8, amended. When [filter_nearby_users] raises on a request with a
    string [blood_type], the failure is caught and the response has status
    500 and one of two fixed bodies, chosen by the class of the exception
    and not by its message: the message that names [ai_filter.py] for an
    [ImportError], the generic message for any other exception. The
    response carries no result field; the table of users is unchanged and
    nothing is committed. *)
Theorem create_alert_internal_error
    Hospital_query_get filter_nearby_users (data : gmap string json)
    (users : list User.t) hospital blood_type e :
  has_required_fields data →
  data !! "blood_type" = Some (JStr blood_type) →
  Hospital_query_get (data !!! "hospital_id") = Some hospital →
  filter_nearby_users hospital
    (filter (suitable (data !!! "blood_type")) users)
    (default (JInt 10) (data !! "radius_km")) = inl e →
  let outcome :=
    run (create_alert Hospital_query_get (Some filter_nearby_users) data)
      users in
  let body :=
    match e with
    | ImportError _ => import_error_body
    | Exception _ => filter_error_body
    end in
  the_response outcome = Response body 500
  ∧ json_field "top_50_users" body = None
  ∧ json_field "total_matched" body = None
  ∧ the_table outcome = users
  ∧ Commit ∉ the_log outcome.
Proof.
  intros Hreq _ Hh Hf. simpl.
  rewrite (create_alert_called _ _ _ _ hospital filter_nearby_users Hreq Hh)
    by done.
  rewrite Hf. destruct e as [msg|msg]; simpl.
  - split_and!; [done..|]. unfold the_log. simpl. absent_from_log.
  - split_and!; [done..|]. unfold the_log. simpl. absent_from_log.
Qed.

Lemma create_alert_internal_error_witness :
  let outcome :=
    run (create_alert sample_hospitals (Some failing_engine) sample_alert)
      sample_users in
  the_response outcome = Response filter_error_body 500
  ∧ json_field "top_50_users" filter_error_body = None
  ∧ json_field "total_matched" filter_error_body = None
  ∧ the_table outcome = sample_users
  ∧ Commit ∉ the_log outcome.
Proof.
  apply (create_alert_internal_error sample_hospitals failing_engine
           sample_alert sample_users sample_hospital "A+"
           (Exception "KeyError: 'lat' in ai_filter.py, line 12")).
  - split; vm_compute; eauto.
  - vm_compute. reflexivity.
  - vm_compute. reflexivity.
  - reflexivity.
Defined.

(** ** The donors that reach the engine and the response *)

Lemma suitable_eligible blood_type (u : User.t) :
  suitable (JStr blood_type) u ↔ eligible blood_type u.
Proof.
  unfold suitable, eligible, column_eq.
  rewrite Is_true_true, !andb_true_iff, !bool_decide_eq_true, String.eqb_eq.
  destruct (User.blood_type u) as [c|]; [rewrite String.eqb_eq|];
    intuition congruence.
Qed.

(** C4. For a request of blood type [blood_type], every user handed to
    [filter_nearby_users] is a row of the table with role "donor", both
    coordinates and exactly that blood type; with the engine in place the
    same holds of the user of every returned entry, so a donor of another
    blood type is never returned. *)
Theorem create_alert_only_eligible_donors
    Hospital_query_get ai_filter distanceKm scorer
    (data : gmap string json) (users : list User.t) blood_type :
  data !! "blood_type" = Some (JStr blood_type) →
  (∀ hospital candidates radius_km u,
     CallFilterNearbyUsers hospital candidates radius_km
       ∈ the_log (run (create_alert Hospital_query_get ai_filter data) users) →
     u ∈ candidates →
     u ∈ users ∧ eligible blood_type u)
  ∧ (∀ body top entry,
       the_response
         (run (create_alert Hospital_query_get
                 (Some (filter_nearby_users distanceKm scorer)) data) users)
         = Response body 200 →
       json_field "top_50_users" body = Some (JArr top) →
       entry ∈ top →
       ∃ u, json_field "user" entry = Some (User.to_dict u)
            ∧ u ∈ users ∧ eligible blood_type u
            ∧ json_field "blood_type" (User.to_dict u)
                = Some (JStr blood_type)).
Proof.
  intros Hbt. apply lookup_total_correct in Hbt as Hbt'. split.
  - intros hospital candidates radius_km u Hlog Hu.
    assert (candidates = filter (suitable (JStr blood_type)) users) as ->.
    { revert Hlog.
      destruct (decide (has_required_fields data)) as [Hreq|Hmiss];
        [|rewrite create_alert_missing_field by done;
          by intros ?%elem_of_nil].
      destruct (Hospital_query_get (data !!! "hospital_id"))
        as [hospital'|] eqn:Hh;
        [|rewrite create_alert_not_found by done; unfold the_log; simpl;
          intros Hin; exfalso; revert Hin; absent_from_log].
      destruct ai_filter as [f|] eqn:Hai;
        [|rewrite (create_alert_import_error _ _ _ _ hospital') by done;
          unfold the_log; simpl;
          intros Hin; exfalso; revert Hin; absent_from_log].
      rewrite (create_alert_called _ _ _ _ hospital' f) by done.
      rewrite Hbt'.
      destruct (f _ _ _) as [[msg|msg]|results]; unfold the_log; simpl;
        intros Hin;
        repeat (apply elem_of_cons in Hin as [Hin|Hin]; [by simplify_eq|]);
        by apply elem_of_nil in Hin. }
    apply list_elem_of_filter in Hu as [Hs Hu].
    by apply suitable_eligible in Hs.
  - intros body top entry Hresp Htop Hentry.
    destruct (run _ users) as [[resp users'] log] eqn:Hrun.
    unfold the_response in Hresp. simpl in Hresp. subst resp.
    apply create_alert_served_inv
      in Hrun as (hospital & radius & _ & _ & _ & -> & _).
    simpl in Htop. injection Htop as <-.
    apply list_elem_of_fmap in Hentry as (r & -> & Hr).
    apply subseteq_take, elem_of_matches in Hr
      as (u & g & Hu & Hs & _ & -> & _).
    rewrite Hbt' in Hs. apply suitable_eligible in Hs.
    exists u. split_and!; [done..|].
    destruct Hs as (_ & _ & _ & Hb). simpl. by rewrite Hb.
Qed.

Lemma create_alert_only_eligible_donors_witness :
  (∀ hospital candidates radius_km u,
     CallFilterNearbyUsers hospital candidates radius_km
       ∈ the_log (run (create_alert sample_hospitals (Some sample_engine)
                         sample_alert) sample_users) →
     u ∈ candidates →
     u ∈ sample_users ∧ eligible "A+" u)
  ∧ (∀ body top entry,
       the_response
         (run (create_alert sample_hospitals
                 (Some (filter_nearby_users sample_distance sample_scorer))
                 sample_alert) sample_users)
         = Response body 200 →
       json_field "top_50_users" body = Some (JArr top) →
       entry ∈ top →
       ∃ u, json_field "user" entry = Some (User.to_dict u)
            ∧ u ∈ sample_users ∧ eligible "A+" u
            ∧ json_field "blood_type" (User.to_dict u) = Some (JStr "A+")).
Proof.
  apply (create_alert_only_eligible_donors sample_hospitals
           (Some sample_engine) sample_distance sample_scorer sample_alert
           sample_users "A+").
  vm_compute. reflexivity.
Defined.

(** ** Radius, empty result and ranking of the returned list *)

(** C1. With the engine in place, on success every returned entry has a
    [distance_km] of at most the requested radius; and, for a positive
    radius, a selected donor at a distance equal to the radius is counted
    in [total_matched] and is returned whenever the 50-entry truncation
    drops nothing. *)
Theorem create_alert_radius_invariant
    Hospital_query_get distanceKm scorer (data : gmap string json)
    (users : list User.t) body users' log :
  run (create_alert Hospital_query_get
         (Some (filter_nearby_users distanceKm scorer)) data) users
    = (Response body 200, users', log) →
  ∃ hospital radius top total,
    Hospital_query_get (data !!! "hospital_id") = Some hospital
    ∧ radius_of_json (default (JInt 10) (data !! "radius_km")) = Some radius
    ∧ json_field "top_50_users" body = Some (JArr top)
    ∧ json_field "total_matched" body = Some (JInt total)
    ∧ (∀ entry, entry ∈ top →
         ∃ d, json_field "distance_km" entry = Some (JFloat d)
              ∧ (d <= radius)%Q)
    ∧ (∀ u g,
         u ∈ users → suitable (data !!! "blood_type") u →
         donor_location u = Some g →
         (0 < radius)%Q →
         distanceKm (hospital_location hospital) g == radius →
         (1 ≤ total)%Z
         ∧ ((total ≤ 50)%Z →
            alert_entry (entry_of distanceKm scorer hospital u g) ∈ top)).
Proof.
  intros (hospital & radius & _ & Hh & Hr & -> & _)%create_alert_served_inv.
  set (M := matches distanceKm scorer hospital radius (data !!! "blood_type")
              users).
  exists hospital, radius, (alert_entry <$> take 50 M), (Z.of_nat (length M)).
  split_and!; [done..| |].
  - intros entry (r & -> & Hin)%list_elem_of_fmap.
    apply subseteq_take, elem_of_matches in Hin as (_ & _ & _ & _ & _ & _ & _ & Hd).
    by exists (r_distance r).
  - intros u g Hu Hs Hg Hpos Heq.
    assert (entry_of distanceKm scorer hospital u g ∈ M) as Hin.
    { apply elem_of_matches. exists u, g. split_and!; [done..|].
      simpl. lra. }
    split.
    + destruct M; [by apply elem_of_nil in Hin|]. simpl. lia.
    + intros Hle. rewrite take_ge by lia. by apply list_elem_of_fmap_2.
Qed.

Lemma create_alert_radius_invariant_witness :
  ∃ body,
    run (create_alert sample_hospitals (Some sample_engine) sample_alert)
      sample_users
    = (Response body 200, sample_users,
       [HospitalGet (JInt 1); UserFilterAll (JStr "A+"); ImportAiFilter;
        CallFilterNearbyUsers sample_hospital
          (filter (suitable (JStr "A+")) sample_users) (JInt 10)])
    ∧ ∃ hospital radius top total,
        sample_hospitals (sample_alert !!! "hospital_id") = Some hospital
        ∧ radius_of_json (default (JInt 10) (sample_alert !! "radius_km"))
            = Some radius
        ∧ json_field "top_50_users" body = Some (JArr top)
        ∧ json_field "total_matched" body = Some (JInt total)
        ∧ (∀ entry, entry ∈ top →
             ∃ d, json_field "distance_km" entry = Some (JFloat d)
                  ∧ (d <= radius)%Q)
        ∧ (∀ u g,
             u ∈ sample_users → suitable (sample_alert !!! "blood_type") u →
             donor_location u = Some g →
             (0 < radius)%Q →
             sample_distance (hospital_location hospital) g == radius →
             (1 ≤ total)%Z
             ∧ ((total ≤ 50)%Z →
                alert_entry
                  (entry_of sample_distance sample_scorer hospital u g)
                  ∈ top)).
Proof.
  eexists. split; [vm_compute; reflexivity|].
  eapply (create_alert_radius_invariant sample_hospitals sample_distance
            sample_scorer sample_alert sample_users).
  vm_compute. reflexivity.
Defined.

(** The donor at exactly 10 km is returned for the default radius of 10. *)
Example boundary_donor_returned :
  ∃ body top,
    the_response
      (run (create_alert sample_hospitals (Some sample_engine) sample_alert)
         sample_users) = Response body 200
    ∧ json_field "top_50_users" body = Some (JArr top)
    ∧ alert_entry
        {| r_user := sample_donor 2 "A+" (10 # 111) 0;
           r_distance :=
             sample_distance (hospital_location sample_hospital)
               {| gp_lat := 10 # 111; gp_lng := 0 |};
           r_ai_score :=
             sample_scorer (sample_donor 2 "A+" (10 # 111) 0)
               (sample_distance (hospital_location sample_hospital)
                  {| gp_lat := 10 # 111; gp_lng := 0 |}) |} ∈ top
    ∧ sample_distance (hospital_location sample_hospital)
        {| gp_lat := 10 # 111; gp_lng := 0 |} == 10.
Proof.
  eexists _, _. split_and!; [vm_compute; reflexivity..| |done].
  vm_compute. do 2 right. left.
Qed.




(** Rows with distinct primary keys are told apart by their key. *)
Lemma NoDup_fmap_eq {A B} (f : A → B) (l : list A) x y :
  NoDup (f <$> l) → x ∈ l → y ∈ l → f x = f y → x = y.
Proof.
  intros Hnd [i Hi]%list_elem_of_lookup [j Hj]%list_elem_of_lookup Hxy.
  assert (i = j) as ->.
  { apply (NoDup_lookup (f <$> l) i j (f x)); [done|..].
    - by rewrite list_lookup_fmap, Hi.
    - by rewrite list_lookup_fmap, Hj, Hxy. }
  congruence.
Qed.





(** ** The profile update *)

Lemma setattr_keeps field value (u : User.t) :
  keeps_identity u (setattr field value u)
  ∧ keeps_coords u (setattr field value u)
  ∧ User.address (setattr field value u)
    = if String.eqb field "address" then value else User.address u.
Proof.
  unfold setattr.
  destruct (String.eqb_spec field "name") as [->|_]; [done|].
  destruct (String.eqb_spec field "phone") as [->|_]; [done|].
  destruct (String.eqb_spec field "address") as [->|_]; [done|].
  by destruct (String.eqb field "blood_type").
Qed.

Lemma for_each_cons {A S} (x : A) rest (body : A → S → handler S) s db :
  for_each (x :: rest) body s db =
    match body x s db with
    | (log, db', inl r) => (log, db', inl r)
    | (log, db', inr s') =>
        let '(log', db'', res) := for_each rest body s' db' in
        (log ++ log', db'', res)
    end.
Proof. reflexivity. Qed.

Section update_loop.

Variable parse : string → option date.
Variable data : gmap string (option string).
Variable old_address : option string.

Lemma update_field_spec field (user : User.t) geocoding_needed db :
  ∃ res,
    update_field parse data old_address field (user, geocoding_needed) db
      = ([], db, res)
    ∧ loop_result user
        (address_step data old_address (User.address user, geocoding_needed)
           field) res.
Proof.
  unfold update_field, address_step.
  destruct (data !! field) as [value|] eqn:Hv.
  - destruct (String.eqb_spec field "last_donation") as [->|Hne].
    + simpl.
      destruct (truthy value); [destruct (parse (default "" value))|];
        eexists; (split; [reflexivity|]); simpl; first [done | by eauto].
    + pose proof (setattr_keeps field value user) as (Hid & Hco & Haddr).
      unfold mbind, handler_bind, mret, handler_ret. simpl.
      destruct (String.eqb field "address") eqn:Hf; simpl.
      * destruct (bool_decide (value ≠ old_address));
          eexists; (split; [reflexivity|]); simpl; by rewrite Haddr.
      * eexists; (split; [reflexivity|]); simpl. by rewrite Haddr.
  - eexists. split; [reflexivity|]. simpl.
    by destruct (String.eqb field "address").
Qed.

Lemma for_each_update_field fields (user : User.t) geocoding_needed db :
  ∃ res,
    for_each fields (update_field parse data old_address)
      (user, geocoding_needed) db = ([], db, res)
    ∧ loop_result user
        (foldl (address_step data old_address)
           (User.address user, geocoding_needed) fields) res.
Proof.
  revert user geocoding_needed.
  induction fields as [|field fields IH]; intros user geocoding_needed.
  - eexists. split; [reflexivity|]. done.
  - destruct (update_field_spec field user geocoding_needed db)
      as (res1 & Hrun1 & Hres1).
    rewrite for_each_cons, Hrun1.
    destruct res1 as [r|[user1 gn1]].
    + eexists. split; [reflexivity|]. exact Hres1.
    + destruct Hres1 as (Hid1 & Hco1 & Hs1).
      destruct (IH user1 gn1) as (res & Hrun & Hres).
      rewrite Hrun. simpl.
      exists res. split; [done|]. rewrite <-Hs1.
      destruct res as [r|[user2 gn2]]; [done|].
      destruct Hres as (Hid2 & Hco2 & Hs2). split_and!; [| |done].
      * unfold keeps_identity in *. intuition congruence.
      * unfold keeps_coords in *. intuition congruence.
Qed.

End update_loop.

Lemma address_after_loop (data : gmap string (option string)) old_address a :
  foldl (address_step data old_address) (a, false) allowed_fields
  = match data !! "address" with
    | Some value => (value, bool_decide (value ≠ old_address))
    | None => (a, false)
    end.
Proof.
  unfold allowed_fields, address_step. simpl.
  destruct (data !! "address") as [value|]; [|done].
  by destruct (bool_decide (value ≠ old_address)).
Qed.

Section update_outcomes.

Variable geocode_address : string → geo_result.
Variable parse : string → option date.
Variable commit_error : list User.t → option string.
Variable user_id : Z.
Variable data : gmap string (option string).
Variable users : list User.t.

Lemma handler_bind_eq {A B} (m : handler A) (k : A → handler B) db :
  (m ≫= k) db =
    match m db with
    | (log, db', inl r) => (log, db', inl r)
    | (log, db', inr a) =>
        let '(log', db'', x) := k a db' in (log ++ log', db'', x)
    end.
Proof. reflexivity. Qed.

(** Runs the binds at the head of a handler applied to a table. *)
Ltac run_binds := repeat (rewrite handler_bind_eq; simpl).

Lemma get_or_404_run db :
  get_or_404 user_id db =
    ([UserGet user_id], db,
     match List.find (λ row, bool_decide (User.id row = user_id)) db with
     | Some user => inr user
     | None => inl (Abort 404)
     end).
Proof.
  unfold get_or_404, emit, rows. run_binds.
  by destruct (List.find _ db).
Qed.

Lemma commit_profile_run (user : User.t) db :
  commit_profile commit_error user db =
    match commit_error (replace_row user db) with
    | None =>
        ([Commit], replace_row user db,
         inl (Response
                (JObj [ ("message", JStr "Cập nhật thông tin thành công");
                        ("user", User.to_dict user) ]) 200))
    | Some e =>
        ([Commit; Rollback; Print ("Lỗi khi cập nhật database: " +:+ e)], db,
         inl (Response
                (JObj [("error", JStr "Lỗi máy chủ nội bộ khi cập nhật")])
                500))
    end.
Proof.
  unfold commit_profile, emit, rows. run_binds.
  by destruct (commit_error _).
Qed.

(** The geocoding block never returns from the handler and never touches
    the table; it calls the geocoder exactly when the address changed to a
    non-empty one. *)
Lemma geocode_if_needed_spec old_address (user : User.t) geocoding_needed db :
  ∃ log user',
    geocode_if_needed geocode_address old_address user geocoding_needed db
      = (log, db, inr user')
    ∧ keeps_identity user user'
    ∧ User.address user' = User.address user
    ∧ (Commit ∉ log)
    ∧ (if geocoding_needed && truthy (User.address user)
       then
         Geocode (default "" (User.address user)) ∈ log
         ∧ match geocode_address (default "" (User.address user)) with
           | Coords la lo =>
               User.lat user' = Some la ∧ User.lng user' = Some lo
           | NoCoords => User.lat user' = None ∧ User.lng user' = None
           | GeoError _ => keeps_coords user user'
           end
       else
         keeps_coords user user' ∧ ∀ a, Geocode a ∉ log).
Proof.
  unfold geocode_if_needed.
  destruct (geocoding_needed && truthy (User.address user)).
  - unfold emit. run_binds.
    destruct (geocode_address _) as [la lo| |e]; run_binds;
      eexists _, _; (split; [reflexivity|]);
      split_and!; try done;
      first [absent_from_log | do 3 right; by left].
  - eexists _, _. split; [reflexivity|].
    split_and!; [done..|by intros ?%elem_of_nil| |]; [done|].
    by intros a ?%elem_of_nil.
Qed.

(** The outcomes of a profile update. *)
Lemma update_user_profile_outcome :
  let outcome :=
    run (update_user_profile geocode_address parse commit_error user_id data)
      users in
  match List.find (λ row, bool_decide (User.id row = user_id)) users with
  | None => outcome = (Abort 404, users, [UserGet user_id])
  | Some user =>
      (the_table outcome = users
       ∧ ∃ body status,
           the_response outcome = Response body status ∧ status ≠ 200)
      ∨ ∃ final,
          the_response outcome
            = Response
                (JObj [ ("message", JStr "Cập nhật thông tin thành công");
                        ("user", User.to_dict final) ]) 200
          ∧ the_table outcome = replace_row final users
          ∧ keeps_identity user final
          ∧ User.address final = default (User.address user) (data !! "address")
          ∧ (if address_changed data user && truthy (User.address final)
             then
               Geocode (default "" (User.address final)) ∈ the_log outcome
               ∧ match geocode_address (default "" (User.address final)) with
                 | Coords la lo =>
                     User.lat final = Some la ∧ User.lng final = Some lo
                 | NoCoords => User.lat final = None ∧ User.lng final = None
                 | GeoError _ => keeps_coords user final
                 end
             else
               keeps_coords user final
               ∧ ∀ a, Geocode a ∉ the_log outcome)
  end.
Proof.
  simpl. unfold run, update_user_profile.
  rewrite handler_bind_eq, get_or_404_run.
  destruct (List.find _ users) as [user|] eqn:Hfind; [|done].
  rewrite handler_bind_eq.
  destruct (for_each_update_field parse data (User.address user)
              allowed_fields user false users) as (res & -> & Hres).
  destruct res as [r|[user1 gn]].
  { left. destruct Hres as [msg ->]. split; [done|]. by eexists _, _. }
  destruct Hres as (Hid1 & Hco1 & Hs1).
  rewrite address_after_loop in Hs1.
  assert (User.address user1 = default (User.address user) (data !! "address")
          ∧ gn = address_changed data user) as [Haddr Hgn].
  { unfold address_changed.
    destruct (data !! "address"); simpl; by simplify_eq. }
  rewrite handler_bind_eq. simpl.
  destruct (geocode_if_needed_spec (User.address user) user1 gn users)
    as (log & final & -> & Hid2 & Haddr2 & Hnc & Hgeo).
  rewrite commit_profile_run.
  destruct (commit_error (replace_row final users)) as [e|].
  { left. split; [done|]. by eexists _, _. }
  right. exists final. split_and!; [done..| | |].
  - unfold keeps_identity in *. intuition congruence.
  - congruence.
  - rewrite <-Hgn, Haddr2. unfold the_log. simpl.
    destruct (gn && truthy (User.address user1)).
    + destruct Hgeo as [Hin Hcoords].
      split; [by apply elem_of_cons; right; apply elem_of_app; left|].
      destruct (geocode_address _); [done..|].
      unfold keeps_coords in *. intuition congruence.
    + destruct Hgeo as [Hcoords Hnot]. split.
      * unfold keeps_coords in *. intuition congruence.
      * intros a [Hin|Hin]%elem_of_cons; [discriminate Hin|].
        apply elem_of_app in Hin as [Hin|Hin]; [by apply (Hnot a)|].
        by apply list_elem_of_singleton in Hin.
Qed.

End update_outcomes.

Lemma find_by_id user_id (users : list User.t) user :
  List.find (λ row, bool_decide (User.id row = user_id)) users = Some user →
  user ∈ users ∧ User.id user = user_id.
Proof.
  intros [Hin Hid]%List.find_some. split; [by apply list_elem_of_In|].
  by apply bool_decide_eq_true in Hid.
Qed.

Lemma find_replace_row user_id (final : User.t) (users : list User.t) user :
  List.find (λ row, bool_decide (User.id row = user_id)) users = Some user →
  User.id final = user_id →
  List.find (λ row, bool_decide (User.id row = user_id))
    (replace_row final users) = Some final.
Proof.
  intros Hfind Hid. induction users as [|row users IH]; [done|].
  simpl in *. rewrite Hid. destruct (bool_decide_reflect (User.id row = user_id)).
  - by rewrite bool_decide_eq_true_2.
  - rewrite (bool_decide_eq_false_2 _ n). by apply IH.
Qed.

Lemma replace_row_lookup (final : User.t) (users : list User.t) i row :
  users !! i = Some row →
  replace_row final users !! i
  = Some (if bool_decide (User.id row = User.id final) then final else row).
Proof. intros Hi. unfold replace_row. by rewrite list_lookup_fmap, Hi. Qed.

(** C10. A profile update leaves every other row as it is and, in the row
    of the targeted user, leaves [id], [email], [password] and [role] as
    they are: whatever changes is among [name], [phone], [address],
    [blood_type], [last_donation], [lat] and [lng] of that row. The ids of
    the table are distinct, as its primary key requires. *)
Theorem update_user_profile_frame
    geocode_address parse commit_error user_id
    (data : gmap string (option string)) (users : list User.t) :
  NoDup (User.id <$> users) →
  let users' :=
    the_table
      (run (update_user_profile geocode_address parse commit_error user_id
              data) users) in
  length users' = length users
  ∧ ∀ i row,
      users !! i = Some row →
      ∃ row',
        users' !! i = Some row'
        ∧ User.id row' = User.id row
        ∧ User.email row' = User.email row
        ∧ User.password row' = User.password row
        ∧ User.role row' = User.role row
        ∧ (User.id row ≠ user_id → row' = row).
Proof.
  intros Hnd. simpl.
  pose proof (update_user_profile_outcome geocode_address parse commit_error
                user_id data users) as Hout.
  simpl in Hout.
  destruct (List.find _ users) as [user|] eqn:Hfind;
    [destruct Hout as [[-> _]|(final & _ & -> & Hid & _)]|rewrite Hout];
    [by eauto 10| |by eauto 10].
  apply find_by_id in Hfind as [Huser Huid].
  destruct Hid as (Hid & Hemail & Hpw & Hrole).
  split; [unfold replace_row; by rewrite length_fmap|].
  intros i row Hi. rewrite (replace_row_lookup _ _ _ _ Hi).
  eexists. split; [reflexivity|].
  destruct (bool_decide_reflect (User.id row = User.id final)) as [Heq|Hne].
  - assert (row = user) as ->.
    { apply (NoDup_fmap_eq User.id users); [done| |done|congruence].
      by eapply list_elem_of_lookup_2. }
    split_and!; [done..|]. intros Hne. congruence.
  - done.
Qed.

Lemma update_user_profile_frame_witness :
  let users' :=
    the_table
      (run (update_user_profile sample_geocoder sample_parse sample_commit 2
              sample_profile) sample_users) in
  length users' = length sample_users
  ∧ ∀ i row,
      sample_users !! i = Some row →
      ∃ row',
        users' !! i = Some row'
        ∧ User.id row' = User.id row
        ∧ User.email row' = User.email row
        ∧ User.password row' = User.password row
        ∧ User.role row' = User.role row
        ∧ (User.id row ≠ 2%Z → row' = row).
Proof.
  apply (update_user_profile_frame sample_geocoder sample_parse sample_commit
           2 sample_profile sample_users).
  apply (bool_decide_unpack _). vm_compute. exact I.
Defined.

(** The sample update does change the row of user 2. *)
Example sample_profile_update :
  the_table
    (run (update_user_profile sample_geocoder sample_parse sample_commit 2
            sample_profile) sample_users) !! 1
  = Some (User.Make 2 (Some "Nguyễn Văn A") (Some "0900000001")
            "2@example.org" "secret" "donor" (Some "54 Nguyễn Du, Hà Nội")
            (Some 21%Q) (Some 105%Q) (Some "A+") (Some (Date 2024 1 2))).
Proof. vm_compute. reflexivity. Qed.

(** ** The location after a change of address *)

(** C9, as stated, fails: when the address is changed to the empty string
    the guard [geocoding_needed and user.address] skips the geocoding, and
    the coordinates of the old address stay in the row. *)
Lemma address_cleared_location_kept :
  ¬ rederives_location sample_geocoder sample_parse sample_commit 1
      cleared_address one_donor.
Proof.
  intros Hclaim.
  specialize (Hclaim
    (sample_donor 1 "A+" (3 # 111) (4 # 111)) (Some "")
    (JObj [ ("message", JStr "Cập nhật thông tin thành công");
            ("user",
              User.to_dict
                (User.set_address (Some "")
                   (sample_donor 1 "A+" (3 # 111) (4 # 111)))) ])
    [User.set_address (Some "") (sample_donor 1 "A+" (3 # 111) (4 # 111))]
    [UserGet 1; Commit]
    (User.set_address (Some "") (sample_donor 1 "A+" (3 # 111) (4 # 111)))).
  assert ((Some (3 # 111), Some (4 # 111)) = (None, None) :> option Q * option Q)
    as Habs; [|discriminate Habs].
  apply Hclaim.
  - vm_compute. reflexivity.
  - vm_compute. reflexivity.
  - discriminate.
  - vm_compute. reflexivity.
  - vm_compute. reflexivity.
Qed.

(** C9, amended. When a successful update changes the address to a
    non-empty string and the geocoder answers without raising, the geocoder
    is called on the new address and the row of the user holds the new
    address with the location it answered: its coordinates, or no
    coordinates when it found none. *)
Theorem update_user_profile_regeocodes
    geocode_address parse commit_error user_id
    (data : gmap string (option string)) (users : list User.t)
    user a body users' log :
  List.find (λ row, bool_decide (User.id row = user_id)) users = Some user →
  data !! "address" = Some (Some a) →
  Some a ≠ User.address user →
  a ≠ "" →
  (∀ e, geocode_address a ≠ GeoError e) →
  run (update_user_profile geocode_address parse commit_error user_id data)
    users = (Response body 200, users', log) →
  ∃ final,
    List.find (λ row, bool_decide (User.id row = user_id)) users' = Some final
    ∧ json_field "user" body = Some (User.to_dict final)
    ∧ User.address final = Some a
    ∧ Geocode a ∈ log
    ∧ (User.lat final, User.lng final) = geocoded geocode_address (Some a).
Proof.
  intros Hfind Haddr Hne Ha Hgeo Hrun.
  pose proof (update_user_profile_outcome geocode_address parse commit_error
                user_id data users) as Hout.
  simpl in Hout. rewrite Hfind, Hrun in Hout.
  unfold the_response, the_table, the_log in Hout. simpl in Hout.
  destruct Hout as [[_ (body' & status & [= <- <-] & Hst)]
                   |(final & [= ->] & -> & Hid & Hfinal & Hcoords)]; [done|].
  rewrite Haddr in Hfinal. simpl in Hfinal.
  assert (address_changed data user && truthy (User.address final) = true)
    as Hcond.
  { unfold address_changed. rewrite Haddr, Hfinal. simpl.
    rewrite bool_decide_eq_true_2 by done.
    by destruct (String.eqb_spec a ""). }
  rewrite Hcond, Hfinal in Hcoords. simpl in Hcoords.
  destruct Hcoords as [Hin Hcoords].
  exists final. split_and!; [|done..|].
  - apply (find_replace_row _ _ _ user); [done|].
    destruct Hid as [-> _]. by apply find_by_id in Hfind as [_ ?].
  - unfold geocoded.
    destruct (geocode_address a) as [la lo| |e] eqn:Hg.
    + destruct Hcoords as [-> ->]. done.
    + destruct Hcoords as [-> ->]. done.
    + by destruct (Hgeo e).
Qed.

Lemma update_user_profile_regeocodes_witness :
  ∃ body users' log,
    run (update_user_profile sample_geocoder sample_parse sample_commit 1
           moved_profile) one_donor = (Response body 200, users', log)
    ∧ ∃ final,
        List.find (λ row, bool_decide (User.id row = 1%Z)) users' = Some final
        ∧ json_field "user" body = Some (User.to_dict final)
        ∧ User.address final = Some "54 Nguyễn Du, Hà Nội"
        ∧ Geocode "54 Nguyễn Du, Hà Nội" ∈ log
        ∧ (User.lat final, User.lng final)
          = geocoded sample_geocoder (Some "54 Nguyễn Du, Hà Nội").
Proof.
  eexists _, _, _. split; [vm_compute; reflexivity|].
  eapply (update_user_profile_regeocodes sample_geocoder sample_parse
            sample_commit 1 moved_profile one_donor
            (sample_donor 1 "A+" (3 # 111) (4 # 111))
            "54 Nguyễn Du, Hà Nội").
  - vm_compute. reflexivity.
  - vm_compute. reflexivity.
  - discriminate.
  - discriminate.
  - intros e. vm_compute. discriminate.
  - vm_compute. reflexivity.
Defined.

(** An address the geocoder does not find clears the location. *)
Example unresolved_address_clears_location :
  the_table
    (run (update_user_profile sample_geocoder sample_parse sample_commit 1
            {[ "address" := Some "Huế" ]}) one_donor)
  = [User.set_coords None None
       (User.set_address (Some "Huế")
          (sample_donor 1 "A+" (3 # 111) (4 # 111)))].
Proof. vm_compute. reflexivity. Qed.

(** * Registration, login and listing *)

(** ** The outcomes of [register_donor] *)

(** Runs the binds at the head of a handler applied to a table. *)
Ltac run_handler := repeat (rewrite handler_bind_eq; simpl).

Lemma truthy_spec (o : option string) :
  truthy o = true ↔ ∃ s, o = Some s ∧ s ≠ "".
Proof.
  destruct o as [s|]; simpl.
  - rewrite negb_true_iff. destruct (String.eqb_spec s "") as [->|Hne].
    + split; [done|]. by intros (s' & [= <-] & ?).
    + split; [by eauto|done].
  - split; [done|]. by intros (s' & ? & _).
Qed.

Lemma filled_item (data : gmap string (option string)) field :
  filled data field = true ↔
    data !! field = Some (Some (item data field)) ∧ item data field ≠ "".
Proof.
  unfold filled, item, data_get.
  destruct (data !! field) as [value|]; simpl.
  - rewrite truthy_spec. destruct value as [s|]; simpl.
    + split; [by intros (s' & [= <-] & ?)|]. intros [_ ?]. by exists s.
    + split; [by intros (s' & ? & _)|]. by intros [? _].
  - split; [done|]. by intros [? _].
Qed.

Lemma truthy_data_get (data : gmap string (option string)) k :
  truthy (data_get data k) = true ↔
    data !! k = Some (Some (item data k)) ∧ item data k ≠ "".
Proof.
  rewrite <-filled_item. unfold filled, data_get.
  by destruct (data !! k).
Qed.

Section register_outcomes.

Variable geocode_address : string → geo_result.
Variable parse : string → option date.
Variable parse_message : string → string.
Variable commit_error : list User.t → option string.
Variable new_id : list User.t → Z.

(** The geocoding block calls the geocoder once, on the address, and
    yields what [geocoded] describes: an exception counts as no result. *)
Lemma geocode_registration_spec address db :
  ∃ glog,
    geocode_registration geocode_address address db
      = (glog, db, inr (geocoded geocode_address (Some address)))
    ∧ Geocode address ∈ glog
    ∧ (∀ a, Geocode a ∈ glog → a = address)
    ∧ (Commit ∉ glog) ∧ (Rollback ∉ glog).
Proof.
  unfold geocode_registration, geocoded, emit. run_handler.
  destruct (geocode_address address) as [la lo| |e]; run_handler;
    eexists; (split; [reflexivity|]);
    (split_and!; [by left| |absent_from_log..]);
    intros a Hin;
    repeat (apply elem_of_cons in Hin as [Hin|Hin]; [by simplify_eq|]);
    by apply elem_of_nil in Hin.
Qed.

Lemma parse_last_donation_run (data : gmap string (option string)) db :
  parse_last_donation parse parse_message data db =
    match given_date data with
    | Some date_str =>
        match parse date_str with
        | Some d => ([], db, inr (Some d))
        | None =>
            ([Print ("Lỗi parse ngày '" +:+ date_str +:+ "': "
                     +:+ parse_message date_str)], db,
             inl (Response (JObj [("error",
               JStr "Định dạng ngày hiến máu cuối không hợp lệ (cần YYYY-MM-DD)")])
               400))
        end
    | None => ([], db, inr None)
    end.
Proof.
  unfold parse_last_donation, given_date.
  destruct (truthy (data_get data "lastDonationDate")) eqn:Hd; [|done].
  apply truthy_data_get in Hd as [_ Hne].
  assert (truthy (Some (item data "lastDonationDate")) = true) as ->
    by (apply truthy_spec; eauto).
  unfold emit. by destruct (parse _); run_handler.
Qed.

Lemma add_and_commit_run (new_user : User.t) db :
  add_and_commit commit_error new_user db =
    match commit_error (db ++ [new_user]) with
    | None =>
        ([Commit], db ++ [new_user],
         inl (Response (registration_body new_user) 201))
    | Some e =>
        ([Commit; Rollback; Print ("Lỗi database: " +:+ e)], db,
         inl (Response
                (JObj [("error", JStr "Lỗi máy chủ nội bộ khi đăng ký")]) 500))
    end.
Proof.
  unfold add_and_commit, registration_body, emit, rows, write_rows. run_handler.
  destruct (commit_error _); run_handler; [done|].
  by destruct (bool_decide (User.lat new_user = None)
               || bool_decide (User.lng new_user = None)).
Qed.

(** The outcomes of a registration, branch by branch. *)
Lemma register_donor_cases (data : gmap string (option string))
    (users : list User.t) :
  let outcome :=
    run (register_donor geocode_address parse parse_message commit_error
           new_id data) users in
  if negb (forallb (filled data) required_fields) then
    outcome =
      (Response
         (JObj [("error", JStr "Thiếu thông tin bắt buộc hoặc thông tin rỗng")])
         400, users, [])
  else if existsb (same_email_or_phone (item data "email") (item data "phone"))
            users then
    outcome =
      (Response (JObj [("error", JStr "Email hoặc số điện thoại đã tồn tại")])
         409, users, [])
  else
    ∃ glog,
      Geocode (item data "address") ∈ glog
      ∧ (∀ a, Geocode a ∈ glog → a = item data "address")
      ∧ (Commit ∉ glog) ∧ (Rollback ∉ glog)
      ∧ match given_date data, given_date data ≫= parse with
        | Some date_str, None =>
            outcome =
              (Response (JObj [("error",
                 JStr "Định dạng ngày hiến máu cuối không hợp lệ (cần YYYY-MM-DD)")])
                 400, users,
               glog ++ [Print ("Lỗi parse ngày '" +:+ date_str +:+ "': "
                               +:+ parse_message date_str)])
        | _, _ =>
            let new_user :=
              registered_row geocode_address parse new_id data users in
            match commit_error (users ++ [new_user]) with
            | None =>
                outcome =
                  (Response (registration_body new_user) 201,
                   users ++ [new_user], glog ++ [Commit])
            | Some e =>
                outcome =
                  (Response
                     (JObj [("error", JStr "Lỗi máy chủ nội bộ khi đăng ký")])
                     500, users,
                   glog ++ [Commit; Rollback; Print ("Lỗi database: " +:+ e)])
            end
        end.
Proof.
  cbv zeta. unfold run, register_donor.
  destruct (negb (forallb (filled data) required_fields)); [exact eq_refl|].
  unfold rows. run_handler.
  destruct (existsb _ users); [exact eq_refl|].
  destruct (geocode_registration_spec (item data "address") users)
    as (glog & Hgeo & Hin & Honly & Hnc & Hnr).
  exists glog. split_and!; [done..|].
  unfold registered_row.
  set (coords := geocoded geocode_address (Some (item data "address"))) in *.
  rewrite handler_bind_eq, Hgeo, handler_bind_eq, parse_last_donation_run.
  destruct (given_date data) as [date_str|]; simpl;
    [destruct (parse date_str) as [d|]; simpl|].
  - rewrite add_and_commit_run. by destruct (commit_error _).
  - done.
  - rewrite add_and_commit_run. by destruct (commit_error _).
Qed.

End register_outcomes.

Lemma duplicate_check (data : gmap string (option string))
    (users : list User.t) :
  existsb (same_email_or_phone (item data "email") (item data "phone")) users
    = true
  ↔ already_registered data users.
Proof.
  rewrite existsb_exists. unfold already_registered, same_email_or_phone.
  split; intros (row & Hin & Hrow); exists row.
  - apply list_elem_of_In in Hin. split; [done|].
    apply orb_true_iff in Hrow as [Heq|Heq].
    + left. by apply String.eqb_eq.
    + right. by apply bool_decide_eq_true in Heq.
  - apply list_elem_of_In in Hin. split; [done|].
    apply orb_true_iff. destruct Hrow as [Heq|Heq].
    + left. by apply String.eqb_eq.
    + right. by apply bool_decide_eq_true.
Qed.

(** X1. A registration in which a required field is missing, [null] or
    the empty string is answered with the validation error and status
    400; the table is unchanged and neither the geocoder nor the database
    has been called. *)
Theorem register_donor_rejects_unfilled
    geocode_address parse parse_message commit_error new_id
    (data : gmap string (option string)) (users : list User.t) field :
  field ∈ required_fields →
  data !! field = None ∨ data !! field = Some None
  ∨ data !! field = Some (Some "") →
  run (register_donor geocode_address parse parse_message commit_error
         new_id data) users
  = (Response
       (JObj [("error", JStr "Thiếu thông tin bắt buộc hoặc thông tin rỗng")])
       400, users, []).
Proof.
  intros Hfield Hempty.
  pose proof (register_donor_cases geocode_address parse parse_message
                commit_error new_id data users) as Hcases.
  cbv zeta in Hcases.
  assert (forallb (filled data) required_fields = false) as Hall.
  { apply not_true_is_false. rewrite forallb_forall. intros Hall.
    specialize (Hall field). rewrite <-list_elem_of_In in Hall.
    specialize (Hall Hfield). unfold filled in Hall.
    destruct Hempty as [He|[He|He]]; rewrite He in Hall; done. }
  by rewrite Hall in Hcases.
Qed.

Lemma register_donor_rejects_unfilled_witness :
  run (register_donor sample_geocoder sample_parse sample_parse_message
         sample_commit sample_new_id
         (<["phone" := Some ""]> sample_registration)) sample_users
  = (Response
       (JObj [("error", JStr "Thiếu thông tin bắt buộc hoặc thông tin rỗng")])
       400, sample_users, []).
Proof.
  apply (register_donor_rejects_unfilled sample_geocoder sample_parse
           sample_parse_message sample_commit sample_new_id
           (<["phone" := Some ""]> sample_registration) sample_users "phone").
  - apply (bool_decide_unpack _). vm_compute. exact I.
  - right. right. vm_compute. reflexivity.
Defined.

(** X2. A complete registration whose email or phone is already held by a
    row of the table is answered with status 409; the table is unchanged
    and neither the geocoder nor the database has been called. *)
Theorem register_donor_rejects_duplicate
    geocode_address parse parse_message commit_error new_id
    (data : gmap string (option string)) (users : list User.t) row :
  forallb (filled data) required_fields = true →
  row ∈ users →
  User.email row = item data "email"
  ∨ User.phone row = Some (item data "phone") →
  run (register_donor geocode_address parse parse_message commit_error
         new_id data) users
  = (Response (JObj [("error", JStr "Email hoặc số điện thoại đã tồn tại")])
       409, users, []).
Proof.
  intros Hall Hrow Hsame.
  pose proof (register_donor_cases geocode_address parse parse_message
                commit_error new_id data users) as Hcases.
  cbv zeta in Hcases. rewrite Hall in Hcases. simpl in Hcases.
  assert (existsb (same_email_or_phone (item data "email")
                     (item data "phone")) users = true) as Hdup
    by (apply duplicate_check; by exists row).
  by rewrite Hdup in Hcases.
Qed.

Lemma register_donor_rejects_duplicate_witness :
  run (register_donor sample_geocoder sample_parse sample_parse_message
         sample_commit sample_new_id
         (<["phone" := Some "3"]> sample_registration)) sample_users
  = (Response (JObj [("error", JStr "Email hoặc số điện thoại đã tồn tại")])
       409, sample_users, []).
Proof.
  apply (register_donor_rejects_duplicate sample_geocoder sample_parse
           sample_parse_message sample_commit sample_new_id
           (<["phone" := Some "3"]> sample_registration) sample_users
           (sample_donor 3 "B+" (1 # 111) (1 # 111))).
  - vm_compute. reflexivity.
  - do 2 right. left.
  - right. vm_compute. reflexivity.
Defined.

Section register_created.

Variable geocode_address : string → geo_result.
Variable parse : string → option date.
Variable parse_message : string → string.
Variable commit_error : list User.t → option string.
Variable new_id : list User.t → Z.
Variable data : gmap string (option string).
Variable users : list User.t.

(** A response with status 201 comes from a committed registration. *)
Lemma register_donor_created_inv body users' log :
  run (register_donor geocode_address parse parse_message commit_error
         new_id data) users = (Response body 201, users', log) →
  forallb (filled data) required_fields = true
  ∧ existsb (same_email_or_phone (item data "email") (item data "phone"))
      users = false
  ∧ users' = users ++ [registered_row geocode_address parse new_id data users]
  ∧ body
    = registration_body (registered_row geocode_address parse new_id data users)
  ∧ Geocode (item data "address") ∈ log
  ∧ Commit ∈ log.
Proof.
  intros Hrun.
  pose proof (register_donor_cases geocode_address parse parse_message
                commit_error new_id data users) as Hcases.
  cbv zeta in Hcases. rewrite Hrun in Hcases.
  destruct (forallb (filled data) required_fields); [|done].
  simpl in Hcases.
  destruct (existsb _ users); [done|].
  destruct Hcases as (glog & Hin & _ & _ & _ & Hcases).
  assert (match commit_error
                  (users ++ [registered_row geocode_address parse new_id data
                               users]) with
          | None =>
              (Response body 201, users', log) =
                (Response
                   (registration_body
                      (registered_row geocode_address parse new_id data users))
                   201,
                 users ++ [registered_row geocode_address parse new_id data
                             users],
                 glog ++ [Commit])
          | Some _ => False
          end) as Hcommit.
  { destruct (given_date data) as [date_str|]; simpl in Hcases;
      [destruct (parse date_str); simpl in Hcases; [|done]|];
      by destruct (commit_error _). }
  destruct (commit_error _); [done|]. simplify_eq.
  split_and!; [done..| |].
  - apply elem_of_app. by left.
  - apply elem_of_app. right. by left.
Qed.

End register_created.

Section register_properties.

Variable geocode_address : string → geo_result.
Variable parse : string → option date.
Variable parse_message : string → string.
Variable commit_error : list User.t → option string.
Variable new_id : list User.t → Z.

(** Whatever the answer, the table is as before, or has the new row at its
    end and the answer has status 201. *)
Lemma register_donor_table (data : gmap string (option string))
    (users : list User.t) :
  let outcome :=
    run (register_donor geocode_address parse parse_message commit_error
           new_id data) users in
  (the_table outcome = users
   ∧ ∀ body, the_response outcome ≠ Response body 201)
  ∨ ∃ body log,
      outcome
      = (Response body 201,
         users ++ [registered_row geocode_address parse new_id data users],
         log).
Proof.
  pose proof (register_donor_cases geocode_address parse parse_message
                commit_error new_id data users) as Hcases.
  cbv zeta in *.
  destruct (negb _); [left; by rewrite Hcases|].
  destruct (existsb _ users); [left; by rewrite Hcases|].
  destruct Hcases as (glog & _ & _ & _ & _ & Hcases).
  destruct (given_date data) as [date_str|]; simpl in Hcases;
    [destruct (parse date_str); simpl in Hcases|].
  1, 3: destruct (commit_error _);
    [left; by rewrite Hcases|right; by eexists _, _].
  left. by rewrite Hcases.
Qed.

End register_properties.

(** ** The outcomes of [login] and [get_users] *)

Lemma login_cases (data : gmap string (option string)) (users : list User.t) :
  run (login data) users =
    (if negb (truthy (data_get data "email"))
        || negb (truthy (data_get data "password"))
     then Response (JObj [("error", JStr "Thiếu email hoặc mật khẩu")]) 400
     else
       match List.find (λ row, String.eqb (User.email row) (item data "email"))
               users with
       | Some user =>
           if String.eqb (User.password user) (item data "password")
           then logged_in user else login_failed
       | None => login_failed
       end,
     users, []).
Proof.
  unfold run, login.
  destruct (negb (truthy (data_get data "email"))
            || negb (truthy (data_get data "password"))); [exact eq_refl|].
  unfold rows. run_handler.
  destruct (List.find _ users) as [user|]; [|exact eq_refl].
  by destruct (String.eqb (User.password user) (item data "password")).
Qed.

Lemma get_users_run (users : list User.t) :
  run get_users users =
    (Response
       (JObj [ ("count", JInt (Z.of_nat (length users)));
               ("users", JArr (User.to_dict <$> users)) ]) 200,
     users, []).
Proof. reflexivity. Qed.

(** The first row with a given email, when no row before the end has it. *)
Lemma find_email_app (users : list User.t) (new_user : User.t) email :
  (∀ row, row ∈ users → User.email row ≠ email) →
  User.email new_user = email →
  List.find (λ row, String.eqb (User.email row) email) (users ++ [new_user])
  = Some new_user.
Proof.
  intros Hfresh Hnew. induction users as [|row users IH]; simpl.
  - by rewrite Hnew, String.eqb_refl.
  - destruct (String.eqb_spec (User.email row) email) as [Heq|_].
    + destruct (Hfresh row); [by left|done].
    + apply IH. intros row' Hin. apply Hfresh. by right.
Qed.

Lemma find_email_Some (users : list User.t) email user :
  List.find (λ row, String.eqb (User.email row) email) users = Some user →
  user ∈ users ∧ User.email user = email.
Proof.
  intros [Hin Heq]%List.find_some. split; [by apply list_elem_of_In|].
  by apply String.eqb_eq.
Qed.

Lemma find_email_unique (users : list User.t) user :
  NoDup (User.email <$> users) → user ∈ users →
  List.find (λ row, String.eqb (User.email row) (User.email user)) users
  = Some user.
Proof.
  intros Hnd Hin.
  destruct (List.find _ users) as [first|] eqn:Hfind.
  - apply find_email_Some in Hfind as [Hfirst Heq].
    f_equal. by apply (NoDup_fmap_eq User.email users).
  - apply list_elem_of_In in Hin.
    pose proof (List.find_none _ _ Hfind _ Hin) as Hne. simpl in Hne.
    by rewrite String.eqb_refl in Hne.
Qed.

(** ** Registration: what is stored, and what it keeps *)

Lemma registration_body_user (new_user : User.t) :
  json_field "user" (registration_body new_user)
  = Some (User.to_dict new_user).
Proof. unfold registration_body. by destruct (_ || _). Qed.

Lemma registration_body_warning geocode_address parse new_id
    (data : gmap string (option string)) (users : list User.t) :
  json_field "warning"
    (registration_body (registered_row geocode_address parse new_id data users))
  = None
  ↔ ∃ la lo, geocode_address (item data "address") = Coords la lo.
Proof.
  unfold registration_body, registered_row, geocoded. simpl.
  destruct (geocode_address (item data "address")) as [la lo| |e]; simpl.
  - split; [by eauto|done].
  - split; [done|]. by intros (la & lo & ?).
  - split; [done|]. by intros (la & lo & ?).
Qed.

(** What a registration answered with status 201 has done. *)
Lemma register_donor_created_facts
    geocode_address parse parse_message commit_error new_id
    (data : gmap string (option string)) (users : list User.t)
    body users' log :
  run (register_donor geocode_address parse parse_message commit_error
         new_id data) users = (Response body 201, users', log) →
  let new_user := registered_row geocode_address parse new_id data users in
  users' = users ++ [new_user]
  ∧ json_field "user" body = Some (User.to_dict new_user)
  ∧ (∀ field, field ∈ required_fields →
       data !! field = Some (Some (item data field)) ∧ item data field ≠ "")
  ∧ (∀ row, row ∈ users →
       User.email row ≠ item data "email"
       ∧ User.phone row ≠ Some (item data "phone"))
  ∧ (json_field "warning" body = None
     ↔ ∃ la lo, geocode_address (item data "address") = Coords la lo)
  ∧ Geocode (item data "address") ∈ log
  ∧ Commit ∈ log.
Proof.
  intros (Hall & Hdup & -> & -> & Hgeo & Hcommit)%register_donor_created_inv.
  simpl. split_and!; [done|apply registration_body_user| |
                      |apply registration_body_warning|done|done].
  - intros field Hin. apply filled_item.
    rewrite forallb_forall in Hall. by apply Hall, list_elem_of_In.
  - intros row Hin. split; intros Heq;
      (assert (already_registered data users) as Hreg
         by (exists row; eauto));
      apply duplicate_check in Hreg; congruence.
Qed.

(** X3. A registration answered with status 201 has added exactly one row
    at the end of the table: the fields of the request, which are all
    non-empty, role "donor", the coordinates the geocoder found for the
    address (none when it found nothing or raised), and the parsed date.
    The response shows that row, carries a warning exactly when there are
    no coordinates, and no earlier row had the email or the phone. *)
Theorem register_donor_created
    geocode_address parse parse_message commit_error new_id
    (data : gmap string (option string)) (users : list User.t)
    body users' log :
  run (register_donor geocode_address parse parse_message commit_error
         new_id data) users = (Response body 201, users', log) →
  let new_user := registered_row geocode_address parse new_id data users in
  users' = users ++ [new_user]
  ∧ json_field "user" body = Some (User.to_dict new_user)
  ∧ (∀ field, field ∈ required_fields →
       data !! field = Some (Some (item data field)) ∧ item data field ≠ "")
  ∧ (∀ row, row ∈ users →
       User.email row ≠ item data "email"
       ∧ User.phone row ≠ Some (item data "phone"))
  ∧ (json_field "warning" body = None
     ↔ ∃ la lo, geocode_address (item data "address") = Coords la lo)
  ∧ Geocode (item data "address") ∈ log
  ∧ Commit ∈ log.
Proof. apply register_donor_created_facts. Qed.

Lemma register_donor_created_witness :
  ∃ body users' log,
    run (register_donor sample_geocoder sample_parse sample_parse_message
           sample_commit sample_new_id sample_registration) sample_users
      = (Response body 201, users', log)
    ∧ let new_user :=
        registered_row sample_geocoder sample_parse sample_new_id
          sample_registration sample_users in
      users' = sample_users ++ [new_user]
      ∧ json_field "user" body = Some (User.to_dict new_user)
      ∧ (∀ field, field ∈ required_fields →
           sample_registration !! field
             = Some (Some (item sample_registration field))
           ∧ item sample_registration field ≠ "")
      ∧ (∀ row, row ∈ sample_users →
           User.email row ≠ item sample_registration "email"
           ∧ User.phone row ≠ Some (item sample_registration "phone"))
      ∧ (json_field "warning" body = None
         ↔ ∃ la lo,
             sample_geocoder (item sample_registration "address")
             = Coords la lo)
      ∧ Geocode (item sample_registration "address") ∈ log
      ∧ Commit ∈ log.
Proof.
  eexists _, _, _. split; [vm_compute; reflexivity|].
  eapply (register_donor_created sample_geocoder sample_parse
            sample_parse_message sample_commit sample_new_id
            sample_registration sample_users).
  vm_compute. reflexivity.
Defined.

(** X4. A registration never changes or removes a row that was in the
    table, and the table differs from the one before only when the answer
    has status 201. *)
Theorem register_donor_append_only
    geocode_address parse parse_message commit_error new_id
    (data : gmap string (option string)) (users : list User.t) :
  let outcome :=
    run (register_donor geocode_address parse parse_message commit_error
           new_id data) users in
  (∀ i row, users !! i = Some row → the_table outcome !! i = Some row)
  ∧ ((∀ body, the_response outcome ≠ Response body 201) →
     the_table outcome = users).
Proof.
  simpl.
  destruct (register_donor_table geocode_address parse parse_message
              commit_error new_id data users)
    as [[Htable Hresp]|(body & log & Hrun)]; cbv zeta in *.
  - rewrite Htable. done.
  - rewrite Hrun. unfold the_table, the_response. simpl. split.
    + intros i row Hi. by apply lookup_app_l_Some.
    + intros Hnot. by destruct (Hnot body).
Qed.

(** X5. A complete registration with a fresh email and phone whose date of
    last donation is given and cannot be parsed is answered with status
    400 and leaves the table unchanged; the geocoder has already been
    called on the address, and nothing is committed. *)
Theorem register_donor_rejects_bad_date
    geocode_address parse parse_message commit_error new_id
    (data : gmap string (option string)) (users : list User.t) date_str :
  forallb (filled data) required_fields = true →
  existsb (same_email_or_phone (item data "email") (item data "phone")) users
    = false →
  data !! "lastDonationDate" = Some (Some date_str) →
  date_str ≠ "" →
  parse date_str = None →
  ∃ log,
    run (register_donor geocode_address parse parse_message commit_error
           new_id data) users
    = (Response (JObj [("error",
         JStr "Định dạng ngày hiến máu cuối không hợp lệ (cần YYYY-MM-DD)")])
         400, users, log)
    ∧ Geocode (item data "address") ∈ log
    ∧ Commit ∉ log.
Proof.
  intros Hall Hdup Hdate Hne Hparse.
  pose proof (register_donor_cases geocode_address parse parse_message
                commit_error new_id data users) as Hcases.
  cbv zeta in Hcases. rewrite Hall, Hdup in Hcases. simpl in Hcases.
  destruct Hcases as (glog & Hin & _ & Hnc & _ & Hcases).
  assert (given_date data = Some date_str) as Hgiven.
  { unfold given_date, item, data_get. rewrite Hdate. simpl.
    by destruct (String.eqb_spec date_str ""). }
  rewrite Hgiven in Hcases. simpl in Hcases. rewrite Hparse in Hcases.
  eexists. split; [exact Hcases|]. split.
  - apply elem_of_app. by left.
  - intros [?|Hin']%elem_of_app; [done|].
    by apply list_elem_of_singleton in Hin'.
Qed.

Lemma register_donor_rejects_bad_date_witness :
  ∃ log,
    run (register_donor sample_geocoder sample_parse sample_parse_message
           sample_commit sample_new_id
           (<["lastDonationDate" := Some "hôm qua"]> sample_registration))
      sample_users
    = (Response (JObj [("error",
         JStr "Định dạng ngày hiến máu cuối không hợp lệ (cần YYYY-MM-DD)")])
         400, sample_users, log)
    ∧ Geocode
        (item (<["lastDonationDate" := Some "hôm qua"]> sample_registration)
           "address") ∈ log
    ∧ Commit ∉ log.
Proof.
  apply (register_donor_rejects_bad_date sample_geocoder sample_parse
           sample_parse_message sample_commit sample_new_id
           (<["lastDonationDate" := Some "hôm qua"]> sample_registration)
           sample_users "hôm qua").
  - vm_compute. reflexivity.
  - vm_compute. reflexivity.
  - vm_compute. reflexivity.
  - discriminate.
  - vm_compute. reflexivity.
Defined.

(** X6. Registration keeps emails and phones unique: if no two rows of the
    table share an email, or a phone, the same holds of the table after
    any registration, by the duplicate check of the handler alone. The ids
    stay distinct as well when the database gives the new row an id that
    is not in use. *)
Theorem register_donor_keeps_unique
    geocode_address parse parse_message commit_error new_id
    (data : gmap string (option string)) (users : list User.t) :
  NoDup (User.email <$> users) →
  NoDup (User.phone <$> users) →
  let users' :=
    the_table
      (run (register_donor geocode_address parse parse_message commit_error
              new_id data) users) in
  NoDup (User.email <$> users')
  ∧ NoDup (User.phone <$> users')
  ∧ (new_id users ∉ User.id <$> users →
     NoDup (User.id <$> users) → NoDup (User.id <$> users')).
Proof.
  intros Hemail Hphone. simpl.
  destruct (register_donor_table geocode_address parse parse_message
              commit_error new_id data users)
    as [[Htable _]|(body & log & Hrun)]; cbv zeta in *.
  { by rewrite Htable. }
  rewrite Hrun. unfold the_table. simpl.
  apply register_donor_created_facts in Hrun as (_ & _ & _ & Hfresh & _).
  rewrite !fmap_app. simpl. split_and!.
  - apply NoDup_app. split_and!; [done| |apply NoDup_singleton].
    intros email (row & -> & Hrow)%list_elem_of_fmap
      Heq%list_elem_of_singleton.
    by destruct (Hfresh row Hrow) as [? _].
  - apply NoDup_app. split_and!; [done| |apply NoDup_singleton].
    intros phone (row & -> & Hrow)%list_elem_of_fmap
      Heq%list_elem_of_singleton.
    by destruct (Hfresh row Hrow) as [_ ?].
  - intros Hnew Hid. apply NoDup_app. split_and!; [done| |apply NoDup_singleton].
    intros id Hin Heq%list_elem_of_singleton. by subst.
Qed.

Lemma register_donor_keeps_unique_witness :
  let users' :=
    the_table
      (run (register_donor sample_geocoder sample_parse sample_parse_message
              sample_commit sample_new_id sample_registration) sample_users) in
  NoDup (User.email <$> users')
  ∧ NoDup (User.phone <$> users')
  ∧ (sample_new_id sample_users ∉ User.id <$> sample_users →
     NoDup (User.id <$> sample_users) → NoDup (User.id <$> users')).
Proof.
  apply (register_donor_keeps_unique sample_geocoder sample_parse
           sample_parse_message sample_commit sample_new_id
           sample_registration sample_users).
  - apply (bool_decide_unpack _). vm_compute. exact I.
  - apply (bool_decide_unpack _). vm_compute. exact I.
Defined.

(** X7. After a registration answered with status 201, a login with the
    email and the password of that registration succeeds on the new table
    and shows the registered row. *)
Theorem register_then_login
    geocode_address parse parse_message commit_error new_id
    (data credentials : gmap string (option string)) (users : list User.t)
    body users' log :
  run (register_donor geocode_address parse parse_message commit_error
         new_id data) users = (Response body 201, users', log) →
  data_get credentials "email" = data_get data "email" →
  data_get credentials "password" = data_get data "password" →
  run (login credentials) users'
  = (logged_in (registered_row geocode_address parse new_id data users),
     users', []).
Proof.
  intros Hrun Hemail Hpassword.
  apply register_donor_created_facts in Hrun as (-> & _ & Hfilled & Hfresh & _).
  rewrite login_cases.
  assert (item credentials "email" = item data "email") as Hie
    by (unfold item; by rewrite Hemail).
  assert (item credentials "password" = item data "password") as Hip
    by (unfold item; by rewrite Hpassword).
  rewrite Hemail, Hpassword, Hie, Hip.
  assert (truthy (data_get data "email") = true) as ->.
  { apply truthy_data_get, Hfilled. do 1 right. left. }
  assert (truthy (data_get data "password") = true) as ->.
  { apply truthy_data_get, Hfilled. do 3 right. left. }
  simpl. rewrite find_email_app; [|intros row Hin; by apply Hfresh|done].
  simpl. by rewrite String.eqb_refl.
Qed.

Lemma register_then_login_witness :
  ∃ users',
    the_table
      (run (register_donor sample_geocoder sample_parse sample_parse_message
              sample_commit sample_new_id sample_registration) sample_users)
    = users'
    ∧ run (login sample_login) users'
      = (logged_in
           (registered_row sample_geocoder sample_parse sample_new_id
              sample_registration sample_users),
         users', []).
Proof.
  eexists. split; [vm_compute; reflexivity|].
  eapply (register_then_login sample_geocoder sample_parse
            sample_parse_message sample_commit sample_new_id
            sample_registration sample_login sample_users).
  - vm_compute. reflexivity.
  - vm_compute. reflexivity.
  - vm_compute. reflexivity.
Defined.

(** X8. After a registration answered with status 201 for an address the
    geocoder resolved, the new donor is among the users that an alert for
    the donor's blood type passes to [filter_nearby_users], for any
    hospital that resolves and any such function. *)
Theorem register_then_alert
    geocode_address parse parse_message commit_error new_id
    (data : gmap string (option string)) (users : list User.t)
    body users' log la lo
    Hospital_query_get filter_nearby_users (alert : gmap string json)
    hospital :
  run (register_donor geocode_address parse parse_message commit_error
         new_id data) users = (Response body 201, users', log) →
  geocode_address (item data "address") = Coords la lo →
  alert !! "blood_type" = Some (JStr (item data "bloodType")) →
  is_Some (alert !! "hospital_id") →
  Hospital_query_get (alert !!! "hospital_id") = Some hospital →
  ∃ candidates radius_km,
    CallFilterNearbyUsers hospital candidates radius_km
      ∈ the_log
          (run (create_alert Hospital_query_get (Some filter_nearby_users)
                  alert) users')
    ∧ registered_row geocode_address parse new_id data users ∈ candidates.
Proof.
  intros Hrun Hgeo Hbt Hid Hh.
  apply register_donor_created_facts in Hrun as (-> & _).
  assert (has_required_fields alert) as Hreq by (split; [done|by eauto]).
  rewrite (create_alert_called _ _ _ _ hospital filter_nearby_users Hreq Hh)
    by done.
  apply lookup_total_correct in Hbt as ->.
  eexists _, _. split.
  - destruct (filter_nearby_users _ _ _) as [[msg|msg]|results];
      unfold the_log; simpl; do 3 right; by left.
  - apply list_elem_of_filter. split.
    + apply suitable_eligible. unfold eligible, registered_row, geocoded.
      simpl. rewrite Hgeo. simpl. by eauto.
    + apply elem_of_app. right. by left.
Qed.

Lemma register_then_alert_witness :
  ∃ candidates radius_km,
    CallFilterNearbyUsers sample_hospital candidates radius_km
      ∈ the_log
          (run (create_alert sample_hospitals (Some sample_engine)
                  (<["blood_type" := JStr "O-"]> sample_alert))
             (sample_users
                ++ [registered_row sample_geocoder sample_parse sample_new_id
                      sample_registration sample_users]))
    ∧ registered_row sample_geocoder sample_parse sample_new_id
        sample_registration sample_users ∈ candidates.
Proof.
  eapply (register_then_alert sample_geocoder sample_parse
            sample_parse_message sample_commit sample_new_id
            sample_registration sample_users _ _ _ 21 105
            sample_hospitals sample_engine
            (<["blood_type" := JStr "O-"]> sample_alert) sample_hospital).
  - vm_compute. reflexivity.
  - vm_compute. reflexivity.
  - vm_compute. reflexivity.
  - vm_compute. eauto.
  - vm_compute. reflexivity.
Defined.

(** * More on the profile update *)

(** ** The loop over [allowed_fields], field by field *)

Section update_steps.

Variable parse : string → option date.
Variable data : gmap string (option string).
Variable old_address : option string.

Lemma update_field_text field (s : User.t * bool) db :
  field ≠ "last_donation" →
  update_field parse data old_address field s db
  = ([], db, inr (edit_step data old_address s field)).
Proof.
  intros Hne. destruct s as [user geocoding_needed].
  unfold update_field, edit_step.
  destruct (data !! field) as [value|]; [|done].
  destruct (String.eqb_spec field "last_donation") as [?|_]; [done|].
  run_handler.
  by destruct (String.eqb field "address" && bool_decide (value ≠ old_address)).
Qed.

Lemma update_field_date (s : User.t * bool) db :
  update_field parse data old_address "last_donation" s db
  = ([], db,
     if date_rejected parse data then
       inl (Response (JObj [("error",
              JStr "Định dạng ngày last_donation không hợp lệ")]) 400)
     else
       inr (User.set_last_donation (edited_date parse data s.1) s.1, s.2)).
Proof.
  destruct s as [user geocoding_needed].
  unfold update_field, date_rejected, edited_date.
  destruct (data !! "last_donation") as [date_str|]; simpl.
  - destruct (truthy date_str); simpl.
    + by destruct (parse (default "" date_str)).
    + done.
  - by destruct user.
Qed.

(** The loop as a whole. *)
Lemma update_loop_run (user : User.t) db :
  for_each allowed_fields (update_field parse data old_address) (user, false)
    db
  = ([], db,
     let s := foldl (edit_step data old_address) (user, false) text_fields in
     if date_rejected parse data then
       inl (Response (JObj [("error",
              JStr "Định dạng ngày last_donation không hợp lệ")]) 400)
     else
       inr (User.set_last_donation (edited_date parse data s.1) s.1, s.2)).
Proof.
  unfold allowed_fields, text_fields.
  do 4 (rewrite for_each_cons, update_field_text by done;
        cbv beta iota zeta).
  rewrite for_each_cons, update_field_date. cbv beta iota zeta.
  by destruct (date_rejected parse data).
Qed.

End update_steps.

(** The pending object after the text fields: each field present in the
    request has the value of the request, the others are as loaded. *)
Lemma edited_text_fields (data : gmap string (option string)) old_address
    (user : User.t) :
  let s := foldl (edit_step data old_address) (user, false) text_fields in
  keeps_identity user s.1 ∧ keeps_coords user s.1
  ∧ User.last_donation s.1 = User.last_donation user
  ∧ User.name s.1 = default (User.name user) (data !! "name")
  ∧ User.phone s.1 = default (User.phone user) (data !! "phone")
  ∧ User.address s.1 = default (User.address user) (data !! "address")
  ∧ User.blood_type s.1
    = default (User.blood_type user) (data !! "blood_type")
  ∧ s.2 = match data !! "address" with
          | Some value => bool_decide (value ≠ old_address)
          | None => false
          end.
Proof.
  unfold text_fields, edit_step, foldl.
  destruct (data !! "name"), (data !! "phone"), (data !! "address"),
    (data !! "blood_type"); cbn [fst snd];
    split_and!; try done; cbn;
    by destruct (bool_decide _).
Qed.

Section update_cases.

Variable geocode_address : string → geo_result.
Variable parse : string → option date.
Variable commit_error : list User.t → option string.
Variable user_id : Z.
Variable data : gmap string (option string).
Variable users : list User.t.

(** The outcomes of a profile update for a user that exists, branch by
    branch, with the log of each. *)
Lemma update_user_profile_cases user :
  List.find (λ row, bool_decide (User.id row = user_id)) users = Some user →
  let outcome :=
    run (update_user_profile geocode_address parse commit_error user_id data)
      users in
  let s := foldl (edit_step data (User.address user)) (user, false)
             text_fields in
  let pending := User.set_last_donation (edited_date parse data s.1) s.1 in
  if date_rejected parse data then
    outcome
    = (Response (JObj [("error",
         JStr "Định dạng ngày last_donation không hợp lệ")]) 400,
       users, [UserGet user_id])
  else
    ∃ glog final,
      geocode_if_needed geocode_address (User.address user) pending s.2 users
      = (glog, users, inr final)
      ∧ outcome
        = match commit_error (replace_row final users) with
          | None =>
              (Response
                 (JObj [ ("message", JStr "Cập nhật thông tin thành công");
                         ("user", User.to_dict final) ]) 200,
               replace_row final users,
               UserGet user_id :: glog ++ [Commit])
          | Some e =>
              (Response
                 (JObj [("error", JStr "Lỗi máy chủ nội bộ khi cập nhật")])
                 500,
               users,
               UserGet user_id
                 :: glog ++ [Commit; Rollback;
                             Print ("Lỗi khi cập nhật database: " +:+ e)])
          end.
Proof.
  intros Hfind. cbv zeta. unfold run, update_user_profile.
  rewrite handler_bind_eq, get_or_404_run, Hfind.
  rewrite handler_bind_eq, update_loop_run. cbv zeta.
  destruct (date_rejected parse data); [exact eq_refl|].
  cbv beta iota. rewrite handler_bind_eq. cbn [fst snd].
  destruct (geocode_if_needed_spec geocode_address
              (User.address user)
              (User.set_last_donation
                 (edited_date parse data
                    (foldl (edit_step data (User.address user)) (user, false)
                       text_fields).1)
                 (foldl (edit_step data (User.address user)) (user, false)
                    text_fields).1)
              (foldl (edit_step data (User.address user)) (user, false)
                 text_fields).2 users)
    as (glog & final & Hgeo & _).
  exists glog, final. split; [done|].
  rewrite Hgeo, commit_profile_run.
  by destruct (commit_error _).
Qed.

End update_cases.

Lemma edited_date_ext parse (data : gmap string (option string))
    (u u' : User.t) :
  User.last_donation u' = User.last_donation u →
  edited_date parse data u' = edited_date parse data u.
Proof. intros Heq. unfold edited_date. by rewrite Heq. Qed.

Lemma find_id_None user_id (users : list User.t) :
  List.find (λ row, bool_decide (User.id row = user_id)) users = None
  ↔ ∀ row, row ∈ users → User.id row ≠ user_id.
Proof.
  split.
  - intros Hnone row Hin%list_elem_of_In.
    pose proof (List.find_none _ _ Hnone _ Hin) as Hne. simpl in Hne.
    by apply bool_decide_eq_false in Hne.
  - intros Hall. destruct (List.find _ users) as [user|] eqn:Hfind; [|done].
    apply find_by_id in Hfind as [Hin Hid]. by destruct (Hall user Hin).
Qed.

Lemma replace_row_same (user : User.t) (users : list User.t) :
  NoDup (User.id <$> users) → user ∈ users → replace_row user users = users.
Proof.
  intros Hnd Hin. unfold replace_row.
  rewrite <-(list_fmap_id users) at 2. apply list_fmap_ext.
  intros i row Hrow. destruct (bool_decide_reflect (User.id row = User.id user));
    [|done].
  simpl. symmetry. apply (NoDup_fmap_eq User.id users); [done| |done..].
  by eapply list_elem_of_lookup_2.
Qed.

(** The geocoding block leaves the other columns as they are. *)
Lemma geocode_if_needed_name_spec geocode_address old_address (user : User.t)
    geocoding_needed db :
  ∃ log user',
    geocode_if_needed geocode_address old_address user geocoding_needed db
      = (log, db, inr user')
    ∧ User.name user' = User.name user
    ∧ User.phone user' = User.phone user
    ∧ User.blood_type user' = User.blood_type user
    ∧ User.last_donation user' = User.last_donation user.
Proof.
  unfold geocode_if_needed.
  destruct (geocoding_needed && truthy (User.address user)).
  - unfold emit. run_handler.
    destruct (geocode_address _) as [la lo| |e]; run_handler;
      by eexists _, _.
  - by eexists _, _.
Qed.

Section update_success.

Variable geocode_address : string → geo_result.
Variable parse : string → option date.
Variable commit_error : list User.t → option string.
Variable user_id : Z.
Variable data : gmap string (option string).
Variable users : list User.t.

(** What a profile update answered with status 200 has stored. *)
Lemma update_success_facts user body users' log :
  List.find (λ row, bool_decide (User.id row = user_id)) users = Some user →
  run (update_user_profile geocode_address parse commit_error user_id data)
    users = (Response body 200, users', log) →
  ∃ glog final,
    users' = replace_row final users
    ∧ List.find (λ row, bool_decide (User.id row = user_id)) users'
      = Some final
    ∧ body = JObj [ ("message", JStr "Cập nhật thông tin thành công");
                    ("user", User.to_dict final) ]
    ∧ log = UserGet user_id :: glog ++ [Commit]
    ∧ date_rejected parse data = false
    ∧ keeps_identity user final
    ∧ User.name final = default (User.name user) (data !! "name")
    ∧ User.phone final = default (User.phone user) (data !! "phone")
    ∧ User.address final = default (User.address user) (data !! "address")
    ∧ User.blood_type final
      = default (User.blood_type user) (data !! "blood_type")
    ∧ User.last_donation final = edited_date parse data user
    ∧ (if address_changed data user && truthy (User.address final)
       then
         Geocode (default "" (User.address final)) ∈ glog
         ∧ match geocode_address (default "" (User.address final)) with
           | Coords la lo =>
               User.lat final = Some la ∧ User.lng final = Some lo
           | NoCoords => User.lat final = None ∧ User.lng final = None
           | GeoError _ => keeps_coords user final
           end
       else
         keeps_coords user final ∧ ∀ a, Geocode a ∉ glog).
Proof.
  intros Hfind Hrun.
  pose proof (update_user_profile_cases geocode_address parse commit_error
                user_id data users user Hfind) as Hcases.
  cbv zeta in Hcases. rewrite Hrun in Hcases.
  destruct (date_rejected parse data); [done|].
  destruct Hcases as (glog & final & Hgeo & Hout).
  destruct (commit_error _); [done|]. injection Hout as -> -> ->.
  pose proof (edited_text_fields data (User.address user) user) as Hs.
  cbv zeta in Hs.
  set (s := foldl (edit_step data (User.address user)) (user, false)
              text_fields) in *.
  destruct Hs as (Hid & Hco & Hld & Hname & Hphone & Haddr & Hbt & Hgn).
  set (pending := User.set_last_donation (edited_date parse data s.1) s.1)
    in *.
  destruct (geocode_if_needed_spec geocode_address (User.address user)
              pending s.2 users)
    as (glog' & final' & Hgeo' & Hid' & Haddr' & _ & Hcoords).
  rewrite Hgeo in Hgeo'. injection Hgeo' as <- <-.
  assert (s.2 = address_changed data user) as Hchanged
    by (by rewrite Hgn).
  assert (User.address final = default (User.address user) (data !! "address"))
    as Hfinal by (rewrite Haddr'; exact Haddr).
  exists glog, final. split_and!; try done.
  - apply (find_replace_row _ _ _ user); [done|].
    destruct Hid' as [-> _]. destruct Hid as [Hid _]. simpl. rewrite Hid.
    by apply find_by_id in Hfind as [_ ?].
  - unfold keeps_identity in *. simpl in *. intuition congruence.
  - destruct (geocode_if_needed_name_spec geocode_address (User.address user)
                pending s.2 users) as (? & ? & Hg & Hn).
    rewrite Hgeo in Hg. injection Hg as <- <-.
    destruct Hn as (Hn & _). rewrite Hn. exact Hname.
  - destruct (geocode_if_needed_name_spec geocode_address (User.address user)
                pending s.2 users) as (? & ? & Hg & Hn).
    rewrite Hgeo in Hg. injection Hg as <- <-.
    destruct Hn as (_ & Hn & _). rewrite Hn. exact Hphone.
  - destruct (geocode_if_needed_name_spec geocode_address (User.address user)
                pending s.2 users) as (? & ? & Hg & Hn).
    rewrite Hgeo in Hg. injection Hg as <- <-.
    destruct Hn as (_ & _ & Hn & _). rewrite Hn. exact Hbt.
  - destruct (geocode_if_needed_name_spec geocode_address (User.address user)
                pending s.2 users) as (? & ? & Hg & Hn).
    rewrite Hgeo in Hg. injection Hg as <- <-.
    destruct Hn as (_ & _ & _ & Hn). rewrite Hn. simpl.
    by apply edited_date_ext.
  - rewrite <-Hchanged, Haddr'. simpl in Hcoords.
    change (User.address pending) with (User.address s.1) in *.
    destruct (s.2 && truthy (User.address s.1)).
    + destruct Hcoords as [Hin Hc]. split; [done|].
      destruct (geocode_address _); [done..|].
      unfold keeps_coords in *. simpl in *. intuition congruence.
    + destruct Hcoords as [Hc Hnot]. split; [|done].
      unfold keeps_coords in *. simpl in *. intuition congruence.
Qed.

End update_success.

(** ** Errors and edge cases of the profile update *)

(** X9. An update for an id that the store can look up, from 0 to below
    [2 ^ 63], and that no row has is answered by [abort(404)]: the table is
    unchanged, and nothing is geocoded or committed. *)
Theorem update_user_profile_unknown_user
    geocode_address parse commit_error user_id
    (data : gmap string (option string)) (users : list User.t) :
  (0 ≤ user_id < 2 ^ 63)%Z →
  (∀ row, row ∈ users → User.id row ≠ user_id) →
  run (update_user_profile geocode_address parse commit_error user_id data)
    users
  = (Abort 404, users, [UserGet user_id]).
Proof.
  intros _ Hnone%find_id_None.
  pose proof (update_user_profile_outcome geocode_address parse commit_error
                user_id data users) as Hout.
  simpl in Hout. by rewrite Hnone in Hout.
Qed.

Lemma update_user_profile_unknown_user_witness :
  run (update_user_profile sample_geocoder sample_parse sample_commit 9
         sample_profile) sample_users
  = (Abort 404, sample_users, [UserGet 9]).
Proof.
  apply (update_user_profile_unknown_user sample_geocoder sample_parse
           sample_commit 9 sample_profile sample_users).
  - lia.
  - intros row Hin.
    repeat (apply elem_of_cons in Hin as [->|Hin]; [discriminate|]).
    by apply elem_of_nil in Hin.
Defined.

(** X10. An update whose [last_donation] is a non-empty string that does
    not parse is answered with status 400 and applies nothing: the table is
    unchanged, whatever other fields the request carries, and nothing is
    geocoded or committed. *)
Theorem update_user_profile_rejects_bad_date
    geocode_address parse commit_error user_id
    (data : gmap string (option string)) (users : list User.t)
    user date_str :
  List.find (λ row, bool_decide (User.id row = user_id)) users = Some user →
  data !! "last_donation" = Some (Some date_str) →
  date_str ≠ "" →
  parse date_str = None →
  run (update_user_profile geocode_address parse commit_error user_id data)
    users
  = (Response (JObj [("error",
       JStr "Định dạng ngày last_donation không hợp lệ")]) 400,
     users, [UserGet user_id]).
Proof.
  intros Hfind Hdate Hne Hparse.
  pose proof (update_user_profile_cases geocode_address parse commit_error
                user_id data users user Hfind) as Hcases.
  cbv zeta in Hcases.
  assert (date_rejected parse data = true) as Hrej.
  { unfold date_rejected. rewrite Hdate. simpl. rewrite Hparse.
    by destruct (String.eqb_spec date_str ""). }
  by rewrite Hrej in Hcases.
Qed.

Lemma update_user_profile_rejects_bad_date_witness :
  run (update_user_profile sample_geocoder sample_parse sample_commit 2
         bad_date_profile) sample_users
  = (Response (JObj [("error",
       JStr "Định dạng ngày last_donation không hợp lệ")]) 400,
     sample_users, [UserGet 2]).
Proof.
  apply (update_user_profile_rejects_bad_date sample_geocoder sample_parse
           sample_commit 2 bad_date_profile sample_users
           (sample_donor 2 "A+" (10 # 111) 0) "32/13/2024").
  - vm_compute. reflexivity.
  - vm_compute. reflexivity.
  - discriminate.
  - vm_compute. reflexivity.
Defined.

(** X11. After an update answered with status 200, the row of the user
    holds, for each of [name], [phone], [address] and [blood_type], the
    value of the request when the request has the key and the previous
    value otherwise; [last_donation] is the parsed date when the request
    gives a non-empty one, nothing when it gives an empty one or [null],
    and the previous date when the key is absent. The response shows that
    row. *)
Theorem update_user_profile_stores_fields
    geocode_address parse commit_error user_id
    (data : gmap string (option string)) (users : list User.t)
    user body users' log :
  List.find (λ row, bool_decide (User.id row = user_id)) users = Some user →
  run (update_user_profile geocode_address parse commit_error user_id data)
    users = (Response body 200, users', log) →
  ∃ final,
    List.find (λ row, bool_decide (User.id row = user_id)) users' = Some final
    ∧ json_field "user" body = Some (User.to_dict final)
    ∧ User.name final = default (User.name user) (data !! "name")
    ∧ User.phone final = default (User.phone user) (data !! "phone")
    ∧ User.address final = default (User.address user) (data !! "address")
    ∧ User.blood_type final
      = default (User.blood_type user) (data !! "blood_type")
    ∧ User.last_donation final
      = match data !! "last_donation" with
        | Some date_str =>
            if truthy date_str then parse (default "" date_str) else None
        | None => User.last_donation user
        end.
Proof.
  intros Hfind Hrun.
  destruct (update_success_facts _ _ _ _ _ _ _ _ _ _ Hfind Hrun)
    as (glog & final & _ & Hfinal & -> & _ & _ & _ & Hname & Hphone & Haddr
        & Hbt & Hld & _).
  exists final. by split_and!.
Qed.

Lemma update_user_profile_stores_fields_witness :
  ∃ body users' log,
    run (update_user_profile sample_geocoder sample_parse sample_commit 2
           sample_profile) sample_users = (Response body 200, users', log)
    ∧ ∃ final,
        List.find (λ row, bool_decide (User.id row = 2%Z)) users' = Some final
        ∧ json_field "user" body = Some (User.to_dict final)
        ∧ User.name final
          = default (User.name (sample_donor 2 "A+" (10 # 111) 0))
              (sample_profile !! "name")
        ∧ User.phone final
          = default (User.phone (sample_donor 2 "A+" (10 # 111) 0))
              (sample_profile !! "phone")
        ∧ User.address final
          = default (User.address (sample_donor 2 "A+" (10 # 111) 0))
              (sample_profile !! "address")
        ∧ User.blood_type final
          = default (User.blood_type (sample_donor 2 "A+" (10 # 111) 0))
              (sample_profile !! "blood_type")
        ∧ User.last_donation final
          = match sample_profile !! "last_donation" with
            | Some date_str =>
                if truthy date_str then sample_parse (default "" date_str)
                else None
            | None => User.last_donation (sample_donor 2 "A+" (10 # 111) 0)
            end.
Proof.
  eexists _, _, _. split; [vm_compute; reflexivity|].
  eapply (update_user_profile_stores_fields sample_geocoder sample_parse
            sample_commit 2 sample_profile sample_users
            (sample_donor 2 "A+" (10 # 111) 0)).
  - vm_compute. reflexivity.
  - vm_compute. reflexivity.
Defined.

(** X12. When the request has no address, the stored address, [null] or
    the empty string, the geocoder is never called, whatever the answer;
    and if the update is answered with status 200 the row keeps its
    coordinates. *)
Theorem update_user_profile_skips_geocoder
    geocode_address parse commit_error user_id
    (data : gmap string (option string)) (users : list User.t) user :
  List.find (λ row, bool_decide (User.id row = user_id)) users = Some user →
  data !! "address" = None
  ∨ data !! "address" = Some (User.address user)
  ∨ data !! "address" = Some None
  ∨ data !! "address" = Some (Some "") →
  let outcome :=
    run (update_user_profile geocode_address parse commit_error user_id data)
      users in
  (∀ a, Geocode a ∉ the_log outcome)
  ∧ (∀ body users' log,
       outcome = (Response body 200, users', log) →
       ∃ final,
         List.find (λ row, bool_decide (User.id row = user_id)) users'
         = Some final
         ∧ User.lat final = User.lat user ∧ User.lng final = User.lng user).
Proof.
  intros Hfind Haddr. cbv zeta.
  assert (address_changed data user
          && truthy (default (User.address user) (data !! "address")) = false)
    as Hcond.
  { unfold address_changed.
    destruct Haddr as [->|[->|[->| ->]]]; simpl; try done.
    - rewrite bool_decide_eq_false_2 by (by intros []). done.
    - apply andb_false_r.
    - apply andb_false_r. }
  split.
  - pose proof (update_user_profile_cases geocode_address parse commit_error
                  user_id data users user Hfind) as Hcases.
    cbv zeta in Hcases.
    destruct (date_rejected parse data).
    { rewrite Hcases. unfold the_log. simpl. intros a. absent_from_log. }
    destruct Hcases as (glog & final & Hgeo & ->).
    pose proof (edited_text_fields data (User.address user) user) as Hs.
    cbv zeta in Hs.
    destruct Hs as (_ & _ & _ & _ & _ & Haddr' & _ & Hgn).
    destruct (geocode_if_needed_spec geocode_address (User.address user)
                (User.set_last_donation
                   (edited_date parse data
                      (foldl (edit_step data (User.address user))
                         (user, false) text_fields).1)
                   (foldl (edit_step data (User.address user)) (user, false)
                      text_fields).1)
                (foldl (edit_step data (User.address user)) (user, false)
                   text_fields).2 users)
      as (glog' & final' & Hgeo' & _ & _ & _ & Hcoords).
    rewrite Hgeo in Hgeo'. injection Hgeo' as <- <-.
    cbn [User.address User.set_last_donation] in Hcoords.
    rewrite Haddr', Hgn in Hcoords.
    fold (address_changed data user) in Hcoords. rewrite Hcond in Hcoords.
    destruct Hcoords as [_ Hnot].
    intros a Hin.
    destruct (commit_error _); unfold the_log in Hin; simpl in Hin;
      apply elem_of_cons in Hin as [Hin|Hin]; try discriminate Hin;
      apply elem_of_app in Hin as [Hin|Hin]; try (by apply (Hnot a));
      revert Hin; absent_from_log.
  - intros body users' log Hrun.
    destruct (update_success_facts _ _ _ _ _ _ _ _ _ _ Hfind Hrun)
      as (glog & final & _ & Hfinal & _ & _ & _ & _ & _ & _ & Haddr' & _ & _
          & Hcoords).
    rewrite Haddr', Hcond in Hcoords. destruct Hcoords as [[? ?] _].
    by exists final.
Qed.

Lemma update_user_profile_skips_geocoder_witness :
  let outcome :=
    run (update_user_profile sample_geocoder sample_parse sample_commit 1
           cleared_address) one_donor in
  (∀ a, Geocode a ∉ the_log outcome)
  ∧ (∀ body users' log,
       outcome = (Response body 200, users', log) →
       ∃ final,
         List.find (λ row, bool_decide (User.id row = 1%Z)) users'
         = Some final
         ∧ User.lat final = User.lat (sample_donor 1 "A+" (3 # 111) (4 # 111))
         ∧ User.lng final
           = User.lng (sample_donor 1 "A+" (3 # 111) (4 # 111))).
Proof.
  apply (update_user_profile_skips_geocoder sample_geocoder sample_parse
           sample_commit 1 cleared_address one_donor
           (sample_donor 1 "A+" (3 # 111) (4 # 111))).
  - vm_compute. reflexivity.
  - do 3 right. vm_compute. reflexivity.
Defined.

(** X13. When the address changes to a non-empty string and the geocoder
    raises, the update is still stored and answered with status 200: the
    row holds the new address and the coordinates it had before. *)
Theorem update_user_profile_geocoder_raises
    geocode_address parse commit_error user_id
    (data : gmap string (option string)) (users : list User.t)
    user a e body users' log :
  List.find (λ row, bool_decide (User.id row = user_id)) users = Some user →
  data !! "address" = Some (Some a) →
  Some a ≠ User.address user →
  a ≠ "" →
  geocode_address a = GeoError e →
  run (update_user_profile geocode_address parse commit_error user_id data)
    users = (Response body 200, users', log) →
  ∃ final,
    List.find (λ row, bool_decide (User.id row = user_id)) users' = Some final
    ∧ User.address final = Some a
    ∧ User.lat final = User.lat user ∧ User.lng final = User.lng user
    ∧ Geocode a ∈ log.
Proof.
  intros Hfind Haddr Hne Ha Hgeo Hrun.
  destruct (update_success_facts _ _ _ _ _ _ _ _ _ _ Hfind Hrun)
    as (glog & final & _ & Hfinal & _ & -> & _ & _ & _ & _ & Haddr' & _ & _
        & Hcoords).
  rewrite Haddr in Haddr'. simpl in Haddr'. rewrite Haddr' in Hcoords.
  assert (address_changed data user && truthy (Some a) = true) as Hcond.
  { unfold address_changed. rewrite Haddr. simpl.
    rewrite bool_decide_eq_true_2 by done.
    by destruct (String.eqb_spec a ""). }
  rewrite Hcond in Hcoords. simpl in Hcoords. rewrite Hgeo in Hcoords.
  destruct Hcoords as [Hin [? ?]].
  exists final. split_and!; [done..|].
  apply elem_of_cons. right. apply elem_of_app. by left.
Qed.

Lemma update_user_profile_geocoder_raises_witness :
  ∃ body users' log,
    run (update_user_profile raising_geocoder sample_parse sample_commit 1
           moved_profile) one_donor = (Response body 200, users', log)
    ∧ ∃ final,
        List.find (λ row, bool_decide (User.id row = 1%Z)) users' = Some final
        ∧ User.address final = Some "54 Nguyễn Du, Hà Nội"
        ∧ User.lat final = User.lat (sample_donor 1 "A+" (3 # 111) (4 # 111))
        ∧ User.lng final = User.lng (sample_donor 1 "A+" (3 # 111) (4 # 111))
        ∧ Geocode "54 Nguyễn Du, Hà Nội" ∈ log.
Proof.
  eexists _, _, _. split; [vm_compute; reflexivity|].
  eapply (update_user_profile_geocoder_raises raising_geocoder sample_parse
            sample_commit 1 moved_profile one_donor
            (sample_donor 1 "A+" (3 # 111) (4 # 111))
            "54 Nguyễn Du, Hà Nội"
            "HTTPSConnectionPool: Max retries exceeded").
  - vm_compute. reflexivity.
  - vm_compute. reflexivity.
  - discriminate.
  - discriminate.
  - reflexivity.
  - vm_compute. reflexivity.
Defined.

(** X14. An update answered with status 500 has attempted the commit and
    rolled it back: the table is as before and the body is the fixed
    error, without the text of the database exception. *)
Theorem update_user_profile_commit_failure
    geocode_address parse commit_error user_id
    (data : gmap string (option string)) (users : list User.t)
    body users' log :
  run (update_user_profile geocode_address parse commit_error user_id data)
    users = (Response body 500, users', log) →
  users' = users
  ∧ body = JObj [("error", JStr "Lỗi máy chủ nội bộ khi cập nhật")]
  ∧ Commit ∈ log ∧ Rollback ∈ log.
Proof.
  intros Hrun.
  destruct (List.find (λ row, bool_decide (User.id row = user_id)) users)
    as [user|] eqn:Hfind.
  - pose proof (update_user_profile_cases geocode_address parse commit_error
                  user_id data users user Hfind) as Hcases.
    cbv zeta in Hcases. rewrite Hrun in Hcases.
    destruct (date_rejected parse data); [done|].
    destruct Hcases as (glog & final & _ & Hout).
    destruct (commit_error _); [|done]. injection Hout as -> -> ->.
    split_and!; [done..| |].
    + apply elem_of_cons. right. apply elem_of_app. right. by left.
    + apply elem_of_cons. right. apply elem_of_app. right. right. by left.
  - pose proof (update_user_profile_outcome geocode_address parse commit_error
                  user_id data users) as Hout.
    simpl in Hout. rewrite Hfind, Hrun in Hout. done.
Qed.

Lemma update_user_profile_commit_failure_witness :
  ∃ body users' log,
    run (update_user_profile sample_geocoder sample_parse refusing_commit 2
           sample_profile) sample_users = (Response body 500, users', log)
    ∧ users' = sample_users
    ∧ body = JObj [("error", JStr "Lỗi máy chủ nội bộ khi cập nhật")]
    ∧ Commit ∈ log ∧ Rollback ∈ log.
Proof.
  eexists _, _, _. split; [vm_compute; reflexivity|].
  eapply (update_user_profile_commit_failure sample_geocoder sample_parse
            refusing_commit 2 sample_profile sample_users).
  vm_compute. reflexivity.
Defined.

(** X15. A request that carries none of the allowed fields changes
    nothing, whatever other keys it has ([role], [email], [password],
    [id], [lat], ...): on a table with distinct ids the commit writes the
    rows as they were and the response shows the user as stored. *)
Theorem update_user_profile_ignores_other_keys
    geocode_address parse commit_error user_id
    (data : gmap string (option string)) (users : list User.t) user :
  NoDup (User.id <$> users) →
  List.find (λ row, bool_decide (User.id row = user_id)) users = Some user →
  (∀ field, field ∈ allowed_fields → data !! field = None) →
  commit_error users = None →
  run (update_user_profile geocode_address parse commit_error user_id data)
    users
  = (Response
       (JObj [ ("message", JStr "Cập nhật thông tin thành công");
               ("user", User.to_dict user) ]) 200,
     users, [UserGet user_id; Commit]).
Proof.
  intros Hnd Hfind Hnone Hcommit.
  pose proof (update_user_profile_cases geocode_address parse commit_error
                user_id data users user Hfind) as Hcases.
  cbv zeta in Hcases.
  assert (data !! "name" = None) as Hname by (apply Hnone; by left).
  assert (data !! "phone" = None) as Hphone
    by (apply Hnone; right; by left).
  assert (data !! "address" = None) as Haddr
    by (apply Hnone; do 2 right; by left).
  assert (data !! "blood_type" = None) as Hbt
    by (apply Hnone; do 3 right; by left).
  assert (data !! "last_donation" = None) as Hld
    by (apply Hnone; do 4 right; by left).
  assert (foldl (edit_step data (User.address user)) (user, false) text_fields
          = (user, false)) as Hs.
  { unfold text_fields, edit_step. simpl.
    by rewrite Hname, Hphone, Haddr, Hbt. }
  assert (date_rejected parse data = false) as Hrej
    by (unfold date_rejected; by rewrite Hld).
  rewrite Hrej, Hs in Hcases. simpl in Hcases.
  destruct Hcases as (glog & final & Hgeo & Hout).
  unfold geocode_if_needed in Hgeo. simpl in Hgeo. injection Hgeo as <- <-.
  assert (User.set_last_donation (edited_date parse data user) user = user)
    as Hsame.
  { unfold edited_date. rewrite Hld. by destruct user. }
  rewrite Hsame in Hout.
  apply find_by_id in Hfind as [Hin _].
  rewrite (replace_row_same _ _ Hnd Hin), Hcommit in Hout. exact Hout.
Qed.

Lemma update_user_profile_ignores_other_keys_witness :
  run (update_user_profile sample_geocoder sample_parse sample_commit 2
         privileged_profile) sample_users
  = (Response
       (JObj [ ("message", JStr "Cập nhật thông tin thành công");
               ("user", User.to_dict (sample_donor 2 "A+" (10 # 111) 0)) ])
       200,
     sample_users, [UserGet 2; Commit]).
Proof.
  apply (update_user_profile_ignores_other_keys sample_geocoder sample_parse
           sample_commit 2 privileged_profile sample_users
           (sample_donor 2 "A+" (10 # 111) 0)).
  - apply (bool_decide_unpack _). vm_compute. exact I.
  - vm_compute. reflexivity.
  - intros field Hin.
    repeat (apply elem_of_cons in Hin as [->|Hin]; [vm_compute; reflexivity|]).
    by apply elem_of_nil in Hin.
  - reflexivity.
Defined.

(** * Login and listing *)

(** X16. A login in which the email or the password is missing, [null] or
    the empty string is answered with status 400, whatever the table
    holds. *)
Theorem login_rejects_unfilled
    (data : gmap string (option string)) (users : list User.t) field :
  field = "email" ∨ field = "password" →
  data !! field = None ∨ data !! field = Some None
  ∨ data !! field = Some (Some "") →
  run (login data) users
  = (Response (JObj [("error", JStr "Thiếu email hoặc mật khẩu")]) 400,
     users, []).
Proof.
  intros Hfield Hempty. rewrite login_cases.
  assert (truthy (data_get data field) = false) as Hfalse.
  { unfold data_get. destruct Hempty as [->|[->| ->]]; done. }
  destruct Hfield as [-> | ->]; rewrite Hfalse; simpl; [done|].
  by rewrite orb_true_r.
Qed.

Lemma login_rejects_unfilled_witness :
  run (login (<["password" := None]> sample_login)) sample_users
  = (Response (JObj [("error", JStr "Thiếu email hoặc mật khẩu")]) 400,
     sample_users, []).
Proof.
  apply (login_rejects_unfilled (<["password" := None]> sample_login)
           sample_users "password").
  - by right.
  - right. left. vm_compute. reflexivity.
Defined.

(** X17. A login answered with status 200 shows a row of the table whose
    email and password are those of the request, both non-empty; the
    table is unchanged. *)
Theorem login_success_sound
    (data : gmap string (option string)) (users : list User.t)
    body users' log :
  run (login data) users = (Response body 200, users', log) →
  ∃ user,
    user ∈ users
    ∧ data !! "email" = Some (Some (User.email user))
    ∧ data !! "password" = Some (Some (User.password user))
    ∧ User.email user ≠ "" ∧ User.password user ≠ ""
    ∧ body = JObj [ ("message", JStr "Đăng nhập thành công");
                    ("user", User.to_dict user) ]
    ∧ users' = users.
Proof.
  rewrite login_cases. intros Hrun.
  destruct (truthy (data_get data "email")) eqn:He; [|done].
  destruct (truthy (data_get data "password")) eqn:Hp; [|done].
  simpl in Hrun.
  apply truthy_data_get in He as [He He'], Hp as [Hp Hp'].
  destruct (List.find _ users) as [user|] eqn:Hfind; [|done].
  apply find_email_Some in Hfind as [Hin Hemail].
  destruct (String.eqb_spec (User.password user) (item data "password"))
    as [Hpw|_]; [|done].
  injection Hrun as <- <-. exists user.
  rewrite Hemail, Hpw. by split_and!.
Qed.

Lemma login_success_sound_witness :
  ∃ body users' log,
    run (login {[ "email" := Some "3@example.org";
                  "password" := Some "secret" ]}) sample_users
      = (Response body 200, users', log)
    ∧ ∃ user,
        user ∈ sample_users
        ∧ ({[ "email" := Some "3@example.org"; "password" := Some "secret" ]}
             : gmap string (option string)) !! "email"
          = Some (Some (User.email user))
        ∧ ({[ "email" := Some "3@example.org"; "password" := Some "secret" ]}
             : gmap string (option string)) !! "password"
          = Some (Some (User.password user))
        ∧ User.email user ≠ "" ∧ User.password user ≠ ""
        ∧ body = JObj [ ("message", JStr "Đăng nhập thành công");
                        ("user", User.to_dict user) ]
        ∧ users' = sample_users.
Proof.
  eexists _, _, _. split; [vm_compute; reflexivity|].
  eapply (login_success_sound
            {[ "email" := Some "3@example.org"; "password" := Some "secret" ]}
            sample_users).
  vm_compute. reflexivity.
Defined.

(** X18. On a table whose emails are distinct, a login with the email and
    the password of a row, both non-empty, is answered with status 200
    and shows that row. *)
Theorem login_accepts_registered
    (data : gmap string (option string)) (users : list User.t) user :
  NoDup (User.email <$> users) →
  user ∈ users →
  data !! "email" = Some (Some (User.email user)) →
  data !! "password" = Some (Some (User.password user)) →
  User.email user ≠ "" → User.password user ≠ "" →
  run (login data) users = (logged_in user, users, []).
Proof.
  intros Hnd Hin He Hp He' Hp'. rewrite login_cases.
  assert (item data "email" = User.email user) as Hie
    by (unfold item, data_get; by rewrite He).
  assert (item data "password" = User.password user) as Hip
    by (unfold item, data_get; by rewrite Hp).
  assert (truthy (data_get data "email") = true) as ->
    by (apply truthy_data_get; by rewrite Hie).
  assert (truthy (data_get data "password") = true) as ->
    by (apply truthy_data_get; by rewrite Hip).
  simpl. rewrite Hie, Hip, (find_email_unique _ _ Hnd Hin).
  by rewrite String.eqb_refl.
Qed.

Lemma login_accepts_registered_witness :
  run (login {[ "email" := Some "3@example.org";
                "password" := Some "secret" ]}) sample_users
  = (logged_in (sample_donor 3 "B+" (1 # 111) (1 # 111)), sample_users, []).
Proof.
  apply (login_accepts_registered
           {[ "email" := Some "3@example.org"; "password" := Some "secret" ]}
           sample_users (sample_donor 3 "B+" (1 # 111) (1 # 111))).
  - apply (bool_decide_unpack _). vm_compute. exact I.
  - do 2 right. left.
  - vm_compute. reflexivity.
  - vm_compute. reflexivity.
  - vm_compute. discriminate.
  - discriminate.
Defined.

(** X19. A login with a non-empty email and password that no row of the
    table has together is answered with status 401 and one fixed body:
    an unknown email and a wrong password are answered alike. *)
Theorem login_rejects_alike
    (data : gmap string (option string)) (users : list User.t)
    email password :
  data !! "email" = Some (Some email) →
  data !! "password" = Some (Some password) →
  email ≠ "" → password ≠ "" →
  (∀ row, row ∈ users →
     ¬ (User.email row = email ∧ User.password row = password)) →
  run (login data) users = (login_failed, users, []).
Proof.
  intros He Hp He' Hp' Hnone. rewrite login_cases.
  assert (item data "email" = email) as Hie
    by (unfold item, data_get; by rewrite He).
  assert (item data "password" = password) as Hip
    by (unfold item, data_get; by rewrite Hp).
  assert (truthy (data_get data "email") = true) as ->
    by (apply truthy_data_get; by rewrite Hie).
  assert (truthy (data_get data "password") = true) as ->
    by (apply truthy_data_get; by rewrite Hip).
  simpl. rewrite Hie, Hip.
  destruct (List.find _ users) as [user|] eqn:Hfind; [|done].
  apply find_email_Some in Hfind as [Hin Hemail].
  destruct (String.eqb_spec (User.password user) password) as [Hpw|_]; [|done].
  by destruct (Hnone user Hin).
Qed.

Lemma login_rejects_alike_witness :
  run (login {[ "email" := Some "3@example.org";
                "password" := Some "guess" ]}) one_donor
  = (login_failed, one_donor, [])
  ∧ run (login {[ "email" := Some "1@example.org";
                  "password" := Some "guess" ]}) one_donor
    = (login_failed, one_donor, []).
Proof.
  split.
  - apply (login_rejects_alike
             {[ "email" := Some "3@example.org"; "password" := Some "guess" ]}
             one_donor "3@example.org" "guess"); try done.
    intros row ->%list_elem_of_singleton [Hemail _]. vm_compute in Hemail.
    discriminate Hemail.
  - apply (login_rejects_alike
             {[ "email" := Some "1@example.org"; "password" := Some "guess" ]}
             one_donor "1@example.org" "guess"); try done.
    intros row ->%list_elem_of_singleton [_ Hpw]. discriminate Hpw.
Defined.

(** X20. After a registration answered with status 201, [/users] lists
    what it listed before followed by the user shown in the registration
    response, and its count is one more. *)
Theorem register_then_get_users
    geocode_address parse parse_message commit_error new_id
    (data : gmap string (option string)) (users : list User.t)
    body users' log :
  run (register_donor geocode_address parse parse_message commit_error
         new_id data) users = (Response body 201, users', log) →
  ∃ listed new_dict,
    json_field "user" body = Some new_dict
    ∧ the_response (run get_users users)
      = Response
          (JObj [ ("count", JInt (Z.of_nat (length users)));
                  ("users", JArr listed) ]) 200
    ∧ the_response (run get_users users')
      = Response
          (JObj [ ("count", JInt (Z.of_nat (length users) + 1));
                  ("users", JArr (listed ++ [new_dict])) ]) 200.
Proof.
  intros (_ & _ & -> & -> & _)%register_donor_created_inv.
  eexists _, _. split; [apply registration_body_user|].
  rewrite !get_users_run. unfold the_response. simpl.
  split; [reflexivity|].
  by rewrite length_app, fmap_app, Nat2Z.inj_add.
Qed.

Lemma register_then_get_users_witness :
  ∃ body users' log,
    run (register_donor sample_geocoder sample_parse sample_parse_message
           sample_commit sample_new_id sample_registration) sample_users
      = (Response body 201, users', log)
    ∧ ∃ listed new_dict,
        json_field "user" body = Some new_dict
        ∧ the_response (run get_users sample_users)
          = Response
              (JObj [ ("count", JInt (Z.of_nat (length sample_users)));
                      ("users", JArr listed) ]) 200
        ∧ the_response (run get_users users')
          = Response
              (JObj [ ("count", JInt (Z.of_nat (length sample_users) + 1));
                      ("users", JArr (listed ++ [new_dict])) ]) 200.
Proof.
  eexists _, _, _. split; [vm_compute; reflexivity|].
  eapply (register_then_get_users sample_geocoder sample_parse
            sample_parse_message sample_commit sample_new_id
            sample_registration sample_users).
  vm_compute. reflexivity.
Defined.

(** ** No response carries a password *)

Lemma to_dict_no_password (u : User.t) :
  has_key "password" (User.to_dict u) = false.
Proof.
  unfold User.to_dict.
  destruct (User.name u), (User.phone u), (User.address u), (User.lat u),
    (User.lng u), (User.blood_type u), (User.last_donation u);
    reflexivity.
Qed.

Lemma to_dicts_no_password (users : list User.t) :
  existsb (has_key "password") (User.to_dict <$> users) = false.
Proof.
  induction users as [|u users IH]; [done|].
  change (has_key "password" (User.to_dict u)
          || existsb (has_key "password") (User.to_dict <$> users) = false).
  by rewrite to_dict_no_password, IH.
Qed.

Lemma message_user_no_password msg (u : User.t) :
  has_key "password" (JObj [("message", JStr msg); ("user", User.to_dict u)])
  = false.
Proof.
  pose proof (to_dict_no_password u) as Hd. revert Hd.
  generalize (User.to_dict u). intros d Hd. simpl. by rewrite Hd.
Qed.

Lemma registration_body_no_password (new_user : User.t) :
  has_key "password" (registration_body new_user) = false.
Proof.
  unfold registration_body. destruct (_ || _).
  - pose proof (to_dict_no_password new_user) as Hd. revert Hd.
    generalize (User.to_dict new_user). intros d Hd. simpl. by rewrite Hd.
  - apply message_user_no_password.
Qed.

(** X21. No body sent by [register_donor], [login], [update_user_profile]
    or [get_users] has a key [password], at any depth: the stored
    password is never serialised. *)
Theorem responses_without_password
    geocode_address parse parse_message commit_error new_id user_id
    (data : gmap string (option string)) (users : list User.t) :
  has_key "password"
    (response_body
       (the_response
          (run (register_donor geocode_address parse parse_message
                  commit_error new_id data) users))) = false
  ∧ has_key "password"
      (response_body (the_response (run (login data) users))) = false
  ∧ has_key "password"
      (response_body
         (the_response
            (run (update_user_profile geocode_address parse commit_error
                    user_id data) users))) = false
  ∧ has_key "password"
      (response_body (the_response (run get_users users))) = false.
Proof.
  split_and!.
  - pose proof (register_donor_cases geocode_address parse parse_message
                  commit_error new_id data users) as Hcases.
    cbv zeta in Hcases.
    destruct (negb _); [by rewrite Hcases|].
    destruct (existsb _ users); [by rewrite Hcases|].
    destruct Hcases as (glog & _ & _ & _ & _ & Hcases).
    destruct (given_date data) as [date_str|]; simpl in Hcases;
      [destruct (parse date_str); simpl in Hcases|].
    1, 3: destruct (commit_error _); rewrite Hcases; [done|];
      apply registration_body_no_password.
    by rewrite Hcases.
  - rewrite login_cases. unfold the_response. simpl.
    destruct (_ || _); [done|].
    destruct (List.find _ users) as [user|]; [|done].
    destruct (String.eqb _ _); [|done].
    apply message_user_no_password.
  - destruct (List.find (λ row, bool_decide (User.id row = user_id)) users)
      as [user|] eqn:Hfind.
    + pose proof (update_user_profile_cases geocode_address parse commit_error
                    user_id data users user Hfind) as Hcases.
      cbv zeta in Hcases.
      destruct (date_rejected parse data); [by rewrite Hcases|].
      destruct Hcases as (glog & final & _ & ->).
      destruct (commit_error _); [done|].
      apply message_user_no_password.
    + pose proof (update_user_profile_outcome geocode_address parse
                    commit_error user_id data users) as Hout.
      simpl in Hout. rewrite Hfind in Hout. by rewrite Hout.
  - rewrite get_users_run. unfold the_response. simpl.
    by rewrite to_dicts_no_password.
Qed.

(** * More on the alert *)

(** X22. [create_alert] only reads: whatever the request, the store and
    the engine do, the table of users is as before, and nothing is
    committed, rolled back or geocoded. *)
Theorem create_alert_read_only
    Hospital_query_get ai_filter (data : gmap string json)
    (users : list User.t) :
  let outcome := run (create_alert Hospital_query_get ai_filter data) users in
  the_table outcome = users
  ∧ (Commit ∉ the_log outcome)
  ∧ (Rollback ∉ the_log outcome)
  ∧ ∀ a, Geocode a ∉ the_log outcome.
Proof.
  cbv zeta.
  destruct (decide (has_required_fields data)) as [Hreq|Hmiss];
    [|rewrite create_alert_missing_field by done; unfold the_log; simpl;
      split_and!; [done|..];
      first [absent_from_log | intros a; absent_from_log]].
  destruct (Hospital_query_get (data !!! "hospital_id")) as [hospital|] eqn:Hh;
    [|rewrite create_alert_not_found by done; unfold the_log; simpl;
      split_and!; [done|..];
      first [absent_from_log | intros a; absent_from_log]].
  destruct ai_filter as [f|] eqn:Hai;
    [|rewrite (create_alert_import_error _ _ _ _ hospital) by done;
      unfold the_log; simpl;
      split_and!; [done|..];
      first [absent_from_log | intros a; absent_from_log]].
  rewrite (create_alert_called _ _ _ _ hospital f) by done.
  destruct (f _ _ _) as [[msg|msg]|results]; unfold the_log; simpl;
    (split_and!; [done|..];
     first [absent_from_log | intros a; absent_from_log]).
Qed.

(** X23. For a request with both keys, a blood type that is a string and
    a hospital that resolves, [filter_nearby_users] is called once the
    import succeeds, with the hospital found, the radius of the request
    (10 when it has none) and exactly the eligible rows of the table, in
    the order of the table: the query drops no eligible donor. *)
Theorem create_alert_passes_all_eligible
    Hospital_query_get filter_nearby_users (data : gmap string json)
    (users : list User.t) hospital blood_type :
  is_Some (data !! "hospital_id") →
  data !! "blood_type" = Some (JStr blood_type) →
  Hospital_query_get (data !!! "hospital_id") = Some hospital →
  ∃ candidates,
    CallFilterNearbyUsers hospital candidates
      (default (JInt 10) (data !! "radius_km"))
      ∈ the_log
          (run (create_alert Hospital_query_get (Some filter_nearby_users)
                  data) users)
    ∧ (∀ u, u ∈ candidates ↔ u ∈ users ∧ eligible blood_type u)
    ∧ candidates `sublist_of` users.
Proof.
  intros Hid Hbt Hh.
  assert (has_required_fields data) as Hreq by (split; [done|by eauto]).
  rewrite (create_alert_called _ _ _ _ hospital filter_nearby_users Hreq Hh)
    by done.
  apply lookup_total_correct in Hbt as ->.
  exists (filter (suitable (JStr blood_type)) users). split_and!.
  - destruct (filter_nearby_users _ _ _) as [[msg|msg]|results];
      unfold the_log; simpl; do 3 right; by left.
  - intros u. rewrite list_elem_of_filter, suitable_eligible. tauto.
  - apply sublist_filter.
Qed.

Lemma create_alert_passes_all_eligible_witness :
  ∃ candidates,
    CallFilterNearbyUsers sample_hospital candidates
      (default (JInt 10) (sample_alert !! "radius_km"))
      ∈ the_log
          (run (create_alert sample_hospitals (Some failing_engine)
                  sample_alert) sample_users)
    ∧ (∀ u, u ∈ candidates ↔ u ∈ sample_users ∧ eligible "A+" u)
    ∧ candidates `sublist_of` sample_users.
Proof.
  apply (create_alert_passes_all_eligible sample_hospitals failing_engine
           sample_alert sample_users sample_hospital "A+").
  - vm_compute. eauto.
  - vm_compute. reflexivity.
  - vm_compute. reflexivity.
Defined.

(** X24. When module [ai_filter] cannot be imported, a request with both
    keys, whose [blood_type] is a string, for a hospital that resolves is
    answered with status 500 and the fixed import error; the hospital and
    the donors of that blood type have been queried, no engine is called,
    and the table is unchanged. *)
Theorem create_alert_without_engine
    Hospital_query_get (data : gmap string json) (users : list User.t)
    hospital blood_type :
  is_Some (data !! "hospital_id") →
  data !! "blood_type" = Some (JStr blood_type) →
  Hospital_query_get (data !!! "hospital_id") = Some hospital →
  run (create_alert Hospital_query_get None data) users
  = (Response
       (JObj [("error",
          JStr "Không tìm thấy file ai_filter.py hoặc file có lỗi.")]) 500,
     users,
     [HospitalGet (data !!! "hospital_id");
      UserFilterAll (JStr blood_type); ImportAiFilter]).
Proof.
  intros Hid Hbt Hh.
  assert (has_required_fields data) as Hreq by (split; [done|by rewrite Hbt]).
  rewrite <-(lookup_total_correct _ _ _ Hbt).
  by apply (create_alert_import_error _ _ _ _ hospital).
Qed.

Lemma create_alert_without_engine_witness :
  run (create_alert sample_hospitals None sample_alert) sample_users
  = (Response
       (JObj [("error",
          JStr "Không tìm thấy file ai_filter.py hoặc file có lỗi.")]) 500,
     sample_users,
     [HospitalGet (sample_alert !!! "hospital_id");
      UserFilterAll (JStr "A+"); ImportAiFilter]).
Proof.
  apply (create_alert_without_engine sample_hospitals sample_alert
           sample_users sample_hospital "A+").
  - vm_compute. eauto.
  - vm_compute. reflexivity.
  - vm_compute. reflexivity.
Defined.

(** X25. A request without [radius_km] is handled exactly as the same
    request with [radius_km] 10: same response, same calls. *)
Theorem create_alert_default_radius
    Hospital_query_get ai_filter (data : gmap string json)
    (users : list User.t) :
  data !! "radius_km" = None →
  run (create_alert Hospital_query_get ai_filter data) users
  = run (create_alert Hospital_query_get ai_filter
           (<["radius_km" := JInt 10]> data)) users.
Proof.
  intros Hnone. unfold create_alert, required_alert_fields. simpl.
  rewrite !lookup_insert_ne, !lookup_total_insert_ne by done.
  by rewrite lookup_insert_eq, Hnone.
Qed.

Lemma create_alert_default_radius_witness :
  run (create_alert sample_hospitals (Some sample_engine) sample_alert)
    sample_users
  = run (create_alert sample_hospitals (Some sample_engine)
           (<["radius_km" := JInt 10]> sample_alert)) sample_users.
Proof.
  apply (create_alert_default_radius sample_hospitals (Some sample_engine)
           sample_alert sample_users).
  vm_compute. reflexivity.
Defined.

(** * Completeness of registration, repetition of an update *)

(** X26. A registration with all required fields non-empty, an email and
    a phone that no row has, and a date of last donation that is absent,
    empty or parses, is answered with status 201 as soon as the database
    accepts the new row, whatever the geocoder does: when it finds nothing
    or raises, the donor is registered without coordinates. *)
Theorem register_donor_succeeds
    geocode_address parse parse_message commit_error new_id
    (data : gmap string (option string)) (users : list User.t) :
  forallb (filled data) required_fields = true →
  existsb (same_email_or_phone (item data "email") (item data "phone")) users
    = false →
  (∀ date_str, given_date data = Some date_str → is_Some (parse date_str)) →
  let new_user := registered_row geocode_address parse new_id data users in
  commit_error (users ++ [new_user]) = None →
  ∃ log,
    run (register_donor geocode_address parse parse_message commit_error
           new_id data) users
    = (Response (registration_body new_user) 201, users ++ [new_user], log)
    ∧ ((∀ la lo, geocode_address (item data "address") ≠ Coords la lo) →
       User.lat new_user = None ∧ User.lng new_user = None).
Proof.
  intros Hall Hdup Hdate new_user Hcommit.
  pose proof (register_donor_cases geocode_address parse parse_message
                commit_error new_id data users) as Hcases.
  cbv zeta in Hcases. rewrite Hall, Hdup in Hcases. simpl in Hcases.
  destruct Hcases as (glog & _ & _ & _ & _ & Hcases).
  fold new_user in Hcases. rewrite Hcommit in Hcases.
  exists (glog ++ [Commit]). split.
  - destruct (given_date data) as [date_str|]; simpl in Hcases; [|done].
    destruct (Hdate date_str eq_refl) as [d Hd]. by rewrite Hd in Hcases.
  - intros Hnot. unfold new_user, registered_row, geocoded. simpl.
    destruct (geocode_address (item data "address")) as [la lo| |e]; [|done..].
    by destruct (Hnot la lo).
Qed.

Lemma register_donor_succeeds_witness :
  let new_user :=
    registered_row raising_geocoder sample_parse sample_new_id
      sample_registration sample_users in
  ∃ log,
    run (register_donor raising_geocoder sample_parse sample_parse_message
           sample_commit sample_new_id sample_registration) sample_users
    = (Response (registration_body new_user) 201,
       sample_users ++ [new_user], log)
    ∧ ((∀ la lo,
          raising_geocoder (item sample_registration "address") ≠ Coords la lo) →
       User.lat new_user = None ∧ User.lng new_user = None).
Proof.
  apply (register_donor_succeeds raising_geocoder sample_parse
           sample_parse_message sample_commit sample_new_id
           sample_registration sample_users).
  - vm_compute. reflexivity.
  - vm_compute. reflexivity.
  - intros date_str Hgiven. vm_compute in Hgiven. discriminate Hgiven.
  - reflexivity.
Defined.

Lemma user_ext (u v : User.t) :
  User.id u = User.id v → User.name u = User.name v →
  User.phone u = User.phone v → User.email u = User.email v →
  User.password u = User.password v → User.role u = User.role v →
  User.address u = User.address v → User.lat u = User.lat v →
  User.lng u = User.lng v → User.blood_type u = User.blood_type v →
  User.last_donation u = User.last_donation v →
  u = v.
Proof. destruct u, v. simpl. by intros -> -> -> -> -> -> -> -> -> -> ->. Qed.

Lemma replace_row_ids (final : User.t) (users : list User.t) :
  User.id <$> replace_row final users = User.id <$> users.
Proof.
  unfold replace_row. rewrite <-list_fmap_compose. apply list_fmap_ext.
  intros i row _. simpl.
  by destruct (bool_decide_reflect (User.id row = User.id final)).
Qed.

(** X27. Repeating an update that was answered with status 200 changes
    nothing more: on a table with distinct ids, the same request on the
    resulting table is answered with the same body, leaves the table as
    it is and does not call the geocoder again. *)
Theorem update_user_profile_idempotent
    geocode_address parse commit_error user_id
    (data : gmap string (option string)) (users : list User.t)
    body users' log :
  NoDup (User.id <$> users) →
  run (update_user_profile geocode_address parse commit_error user_id data)
    users = (Response body 200, users', log) →
  commit_error users' = None →
  run (update_user_profile geocode_address parse commit_error user_id data)
    users' = (Response body 200, users', [UserGet user_id; Commit]).
Proof.
  intros Hnd Hrun Hcommit.
  destruct (List.find (λ row, bool_decide (User.id row = user_id)) users)
    as [user|] eqn:Hfind.
  2: { pose proof (update_user_profile_outcome geocode_address parse
                     commit_error user_id data users) as Hout.
       simpl in Hout. rewrite Hfind, Hrun in Hout. done. }
  destruct (update_success_facts _ _ _ _ _ _ _ _ _ _ Hfind Hrun)
    as (glog & final & -> & Hfinal & -> & _ & Hrej & Hid & Hname & Hphone
        & Haddr & Hbt & Hld & _).
  pose proof (update_user_profile_cases geocode_address parse commit_error
                user_id data (replace_row final users) final Hfinal) as Hcases.
  cbv zeta in Hcases. rewrite Hrej in Hcases.
  pose proof (edited_text_fields data (User.address final) final) as Hs.
  cbv zeta in Hs.
  destruct Hs as ((Hid2 & Hemail2 & Hpw2 & Hrole2) & (Hlat2 & Hlng2) & Hld2
                  & Hname2 & Hphone2 & Haddr2 & Hbt2 & Hgn2).
  assert (foldl (edit_step data (User.address final)) (final, false)
            text_fields = (final, false)) as Hs.
  { destruct (foldl _ _ text_fields) as [edited gn]. simpl in *. f_equal.
    - apply user_ext; try done.
      + rewrite Hname2, Hname. by destruct (data !! "name").
      + rewrite Hphone2, Hphone. by destruct (data !! "phone").
      + rewrite Haddr2, Haddr. by destruct (data !! "address").
      + rewrite Hbt2, Hbt. by destruct (data !! "blood_type").
    - rewrite Hgn2, Haddr. destruct (data !! "address") as [value|]; [|done].
      simpl. by apply bool_decide_eq_false_2; intros []. }
  rewrite Hs in Hcases. simpl in Hcases.
  assert (User.set_last_donation (edited_date parse data final) final = final)
    as Hsame.
  { apply user_ext; try done. simpl. unfold edited_date in *.
    by destruct (data !! "last_donation"). }
  rewrite Hsame in Hcases.
  destruct Hcases as (glog2 & final2 & Hgeo & Hout).
  unfold geocode_if_needed in Hgeo. simpl in Hgeo. injection Hgeo as <- <-.
  assert (replace_row final (replace_row final users)
          = replace_row final users) as Hrows.
  { apply replace_row_same.
    - by rewrite replace_row_ids.
    - by apply find_by_id in Hfinal as [? _]. }
  rewrite Hrows, Hcommit in Hout. exact Hout.
Qed.

Lemma update_user_profile_idempotent_witness :
  ∃ body users' log,
    run (update_user_profile sample_geocoder sample_parse sample_commit 2
           sample_profile) sample_users = (Response body 200, users', log)
    ∧ run (update_user_profile sample_geocoder sample_parse sample_commit 2
             sample_profile) users'
      = (Response body 200, users', [UserGet 2; Commit]).
Proof.
  eexists _, _, _. split; [vm_compute; reflexivity|].
  eapply (update_user_profile_idempotent sample_geocoder sample_parse
            sample_commit 2 sample_profile sample_users).
  - apply (bool_decide_unpack _). vm_compute. exact I.
  - vm_compute. reflexivity.
  - reflexivity.
Defined.
